(** * scripts/generate_api_docs.py: the public-API surface comparator

    A shallow embedding of [parse_api_line], [extract_apis],
    [categorize_by_module] and [generate_markdown], with the Python
    primitives they rest on ([str.startswith], [in], [str.replace],
    [str.split], [str.strip], [str.splitlines], [re.match], [sorted],
    [dict], [set]).

    Characters are code points below 256 ([ascii]); a Python [str] is a
    [string].  A [dict] is an insertion-ordered association list with
    unique keys, a [set] of paths is a [gset string]. *)

From Stdlib Require Import Ascii String List Bool Arith Lia NArith.
From Stdlib Require Import Sorting.Sorted DecimalString.
From stdpp Require Import base gmap strings list.

Local Open Scope string_scope.
Local Open Scope list_scope.

(* ===================================================================== *)
(** ** Python [str] primitives                                            *)
(* ===================================================================== *)

Module PyStr.

(** [str.isspace] on one character, which is also the class [\s] of a
    [str] regular expression: TAB..CR, FS..US, SPACE, NEL, NBSP. *)
Definition is_space (c : ascii) : bool :=
  let n := nat_of_ascii c in
  (((9 <=? n) && (n <=? 13)) || ((28 <=? n) && (n <=? 32))
   || (n =? 133) || (n =? 160))%nat.

(** The line boundaries of [str.splitlines]: LF, VT, FF, CR, FS, GS, RS
    and NEL (US is white space but no boundary). *)
Definition is_linebreak (c : ascii) : bool :=
  let n := nat_of_ascii c in
  (((10 <=? n) && (n <=? 13)) || ((28 <=? n) && (n <=? 30)) || (n =? 133))%nat.

(** [s.startswith(p)] *)
Definition startswith (p s : string) : bool := String.prefix p s.

(** [sub in s] *)
Fixpoint contains (sub s : string) : bool :=
  String.prefix sub s ||
  match s with
  | EmptyString => false
  | String _ r => contains sub r
  end.

(** [any(x in s for x in xs)] *)
Definition any_in (xs : list string) (s : string) : bool :=
  existsb (fun x => contains x s) xs.

(** [s.replace(old, new)] for a non-empty [old]: scan from the left; at
    an occurrence of [old] emit [new] and skip the occurrence
    ([skip] counts the characters of it still to pass). *)
Fixpoint replace_from (old new : string) (skip : nat) (s : string) : string :=
  match s with
  | EmptyString => EmptyString
  | String c r =>
      match skip with
      | S k => replace_from old new k r
      | O =>
          if String.prefix old s
          then new +:+ replace_from old new (String.length old - 1) r
          else String c (replace_from old new 0 r)
      end
  end.

(** [s.replace("", new)]: [new] before every character and at the end. *)
Fixpoint intersperse (new s : string) : string :=
  match s with
  | EmptyString => new
  | String c r => new +:+ String c (intersperse new r)
  end.

Definition replace (old new s : string) : string :=
  match old with
  | EmptyString => intersperse new s
  | String _ _ => replace_from old new 0 s
  end.

(** [s.split(sep)] for a non-empty [sep] (the source only splits on
    ["::"]; Python raises [ValueError] on an empty separator): [cur] is
    the segment being read. *)
Fixpoint split_from (sep : string) (skip : nat) (cur s : string) : list string :=
  match s with
  | EmptyString => [cur]
  | String c r =>
      match skip with
      | S k => split_from sep k cur r
      | O =>
          if String.prefix sep s
          then cur :: split_from sep (String.length sep - 1) EmptyString r
          else split_from sep 0 (cur +:+ String c EmptyString) r
      end
  end.

Definition split (sep s : string) : list string :=
  split_from sep 0 EmptyString s.

(** [sep.join(parts)] *)
Definition join (sep : string) (parts : list string) : string :=
  String.concat sep parts.

(** [s.strip()] *)
Fixpoint lstrip (s : string) : string :=
  match s with
  | EmptyString => EmptyString
  | String c r => if is_space c then lstrip r else s
  end.

Fixpoint rstrip (s : string) : string :=
  match s with
  | EmptyString => EmptyString
  | String c r =>
      match rstrip r with
      | EmptyString => if is_space c then EmptyString else String c EmptyString
      | r' => String c r'
      end
  end.

Definition strip (s : string) : string := rstrip (lstrip s).

(** [s.splitlines()]: CR LF is one boundary, and a trailing boundary
    opens no further line. *)
Fixpoint splitlines_from (cur s : string) : list string :=
  match s with
  | EmptyString =>
      match cur with EmptyString => [] | _ => [cur] end
  | String c r =>
      if is_linebreak c then
        cur ::
          match r with
          | String c' r' =>
              if (Ascii.eqb c "013" && Ascii.eqb c' "010")%bool
              then splitlines_from EmptyString r'
              else splitlines_from EmptyString r
          | EmptyString => splitlines_from EmptyString r
          end
      else splitlines_from (cur +:+ String c EmptyString) r
  end.

Definition splitlines (s : string) : list string :=
  splitlines_from EmptyString s.

(** [str(n)] for a length *)
Definition str_of_nat (n : nat) : string :=
  NilEmpty.string_of_uint (Nat.to_uint n).

End PyStr.

(* ===================================================================== *)
(** ** The regular expressions of [parse_api_line]                        *)
(* ===================================================================== *)

Module Re.

(** The rest of [s] after the literal text [p], if [s] starts with it. *)
Fixpoint after_prefix (p s : string) : option string :=
  match p with
  | EmptyString => Some s
  | String a p' =>
      match s with
      | EmptyString => None
      | String b s' => if Ascii.eqb a b then after_prefix p' s' else None
      end
  end.

(** The longest run of [\S] characters at the head of [s]: every match of
    a pattern made of [\S] and non-blank literals lies inside it. *)
Fixpoint span_nonspace (s : string) : string :=
  match s with
  | EmptyString => EmptyString
  | String c r =>
      if PyStr.is_space c then EmptyString else String c (span_nonspace r)
  end.

(** Greedy [\S*] followed by [\(] on a blank-free text: the longest
    prefix that has an opening parenthesis right after it. *)
Fixpoint upto_last_paren (u : string) : option string :=
  match u with
  | EmptyString => None
  | String c r =>
      match upto_last_paren r with
      | Some b => Some (String c b)
      | None => if Ascii.eqb c "(" then Some EmptyString else None
      end
  end.

(** [\S+\(]: what [\S+] matches. *)
Definition segment_then_paren (u : string) : option string :=
  match u with
  | EmptyString => None
  | String c r => option_map (String c) (upto_last_paren r)
  end.

(** Greedy [\S*], then [::\S+\(]; the result is what [\S*::\S+] matches.
    The longer first run is tried first (the recursive call), as a
    backtracking matcher does. *)
Fixpoint scoped_then_paren (t : string) : option string :=
  match t with
  | EmptyString => None
  | String c r =>
      match scoped_then_paren r with
      | Some p => Some (String c p)
      | None =>
          match after_prefix "::" t with
          | Some u => option_map (String.append "::") (segment_then_paren u)
          | None => None
          end
      end
  end.

(** [\S+::\S+\(]: group 2 of the function pattern. *)
Definition scoped_path (t : string) : option string :=
  match t with
  | EmptyString => None
  | String c r => option_map (String c) (scoped_then_paren r)
  end.

(** Group 2 of [re.match] with the function pattern
    [^pub (fn) (\S+::\S+)\(] and then any rest of the line (the
    pattern's last group takes what is left, nothing included). *)
Definition match_fn (line : string) : option string :=
  match after_prefix "pub fn " line with
  | Some rest => scoped_path (span_nonspace rest)
  | None => None
  end.

(** Group 2 of [re.match] with a pattern [^pub (kw) (\S+)]. *)
Definition match_keyword (kw line : string) : option string :=
  match after_prefix ("pub " +:+ kw +:+ " ") line with
  | Some rest =>
      match span_nonspace rest with
      | EmptyString => None
      | tok => Some tok
      end
  | None => None
  end.

End Re.

(* ===================================================================== *)
(** ** [dict]: insertion-ordered, unique keys                             *)
(* ===================================================================== *)

Module PyDict.
Section Dict.
Context {V : Type}.

Definition t := list (string * V).

(** [d.get(k)]; [d[k]] raises [KeyError] where this is [None]. *)
Fixpoint get (k : string) (d : t) : option V :=
  match d with
  | [] => None
  | (k', v) :: d' => if String.eqb k k' then Some v else get k d'
  end.

(** [d[k] = v]: a present key keeps its place, a new one goes last. *)
Fixpoint set (k : string) (v : V) (d : t) : t :=
  match d with
  | [] => [(k, v)]
  | (k', v') :: d' =>
      if String.eqb k k' then (k', v) :: d' else (k', v') :: set k v d'
  end.

Definition keys (d : t) : list string := map fst d.
Definition values (d : t) : list V := map snd d.
End Dict.
Arguments t : clear implicits.

(** [d[k]] on a [defaultdict(list)] *)
Definition get_list {A : Type} (k : string) (d : t (list A)) : list A :=
  match get k d with Some l => l | None => [] end.

(** [d[k].append(x)] on a [defaultdict(list)] *)
Definition append_to {A : Type} (k : string) (x : A) (d : t (list A)) : t (list A) :=
  set k (get_list k d ++ [x]) d.
End PyDict.

(* ===================================================================== *)
(** ** [sorted]                                                           *)
(* ===================================================================== *)

(** [sorted(l, key=key)] on string keys: Python's sort is stable, and the
    stable sorted arrangement of a list is unique, so a stable insertion
    sort yields the same list.  Strings compare by code point. *)
Section Sorted.
Context {A : Type} (key : A -> string).

Fixpoint insert_by (x : A) (l : list A) : list A :=
  match l with
  | [] => [x]
  | y :: l' =>
      if String.leb (key x) (key y) then x :: l else y :: insert_by x l'
  end.

Definition sorted_by (l : list A) : list A := foldr insert_by [] l.
End Sorted.

Definition sorted (l : list string) : list string := sorted_by id l.

(* ===================================================================== *)
(** ** The program                                                        *)
(* ===================================================================== *)

(** [class ApiItem] *)
Record ApiItem : Type := mkApiItem {
  kind : string;       (* fn, struct, enum, type, const, mod, trait *)
  path : string;       (* full path like oxidros_zenoh::Context *)
  signature : string;  (* full signature *)
  name : string;       (* short name like new or Context *)
  parent : string      (* parent module/struct *)
}.

(** What [subprocess.run] hands to [run_cargo_public_api]: the fields the
    function reads. *)
Record CompletedProcess : Type := mkCompletedProcess {
  returncode : Z;
  stdout : string;
  stderr : string
}.

(** [run_cargo_public_api] once the process has ended: the lines it
    prints and the text it returns. *)
Definition run_cargo_public_api (package : string) (result : CompletedProcess)
    : list string * string :=
  if negb (returncode result =? 0)%Z then
    ([ "Warning: cargo public-api failed for " +:+ package; stderr result ],
     EmptyString)
  else ([], stdout result).

(** The [patterns] table of [parse_api_line]: matcher and kind, in order. *)
Definition patterns : list ((string -> option string) * string) :=
  [ (Re.match_fn, "fn");
    (Re.match_keyword "struct", "struct");
    (Re.match_keyword "enum", "enum");
    (Re.match_keyword "type", "type");
    (Re.match_keyword "const", "const");
    (Re.match_keyword "mod", "mod");
    (Re.match_keyword "trait", "trait") ].

(** Skip impl blocks from dependencies *)
Definition dependency_fragments : list string :=
  [ "stabby_abi"; "ppv_lite86"; "crossbeam_epoch";
    "zenoh_keyexpr"; "asn1_rs"; "typenum"; "either";
    "tracing::"; "core::"; "alloc::"; "std::" ].

(** Skip auto-derived trait methods *)
Definition auto_derived_methods : list string :=
  [ "::borrow("; "::borrow_mut("; "::from("; "::into(";
    "::try_from("; "::try_into("; "::type_id(";
    "::clone("; "::clone_from("; "::default(";
    "::eq("; "::ne("; "::partial_cmp("; "::cmp(";
    "::hash("; "::fmt(";
    "::guard_mut_inner("; "::guard_ref_inner(";
    "::mut_as<"; "::ref_as<"; "::as_node("; "::as_node_mut(";
    "::vzip("; "::to_owned("; "::clone_into(";
    "::__clone_box("; "::deref("; "::deref_mut(" ].

(** Skip type aliases for Error, Output, Guard, Init, Owned (from traits) *)
Definition trait_type_fragments : list string :=
  [ "::Error"; "::Output"; "::Guard<"; "::GuardMut<";
    "::Init"; "::Owned"; "::Request" ].

(** The item [parse_api_line] returns: name and parent from the path. *)
Definition make_item (kind path line : string) : ApiItem :=
  let parts := PyStr.split "::" path in
  let name := List.last parts path in
  let parent :=
    if (1 <? length parts)%nat then PyStr.join "::" (removelast parts)
    else EmptyString in
  mkApiItem kind path line name parent.

(** The body of [parse_api_line] once a pattern has matched with group 2
    [path]: the crate test, the four skips, then the item. *)
Definition on_match (kind path line crate_name : string) : option ApiItem :=
  if negb (PyStr.startswith crate_name path) then None
  else if PyStr.any_in dependency_fragments path then None
  else if PyStr.any_in auto_derived_methods line then None
  else if String.eqb kind "type" && PyStr.any_in trait_type_fragments path then None
  else if String.eqb kind "const" && PyStr.contains "::ALIGN" path then None
  else Some (make_item kind path line).

(** The loop of [parse_api_line] up to its first match: the kind and
    group 2 of the first pattern that matches. *)
Fixpoint first_match (pats : list ((string -> option string) * string))
    (line : string) : option (string * string) :=
  match pats with
  | [] => None
  | (pattern, kind) :: pats' =>
      match pattern line with
      | Some path => Some (kind, path)
      | None => first_match pats' line
      end
  end.

(** The function returns from inside the loop at the first match, with
    an item or with [None]; with no match it returns [None]. *)
Definition parse_api_line (line crate_name : string) : option ApiItem :=
  match first_match patterns line with
  | Some (kind, path) => on_match kind path line crate_name
  | None => None
  end.

(** [item.path.replace(crate_name, "oxidros")] *)
Definition normalize_path (crate_name path : string) : string :=
  PyStr.replace crate_name "oxidros" path.

(** What one raw line of the listing adds to the registry, if anything:
    the normalized key and the item. *)
Definition line_entry (crate_name raw : string) : option (string * ApiItem) :=
  let line := PyStr.strip raw in
  if negb (PyStr.startswith "pub " line) then None
  else
    match parse_api_line line crate_name with
    | Some item => Some (normalize_path crate_name (path item), item)
    | None => None
    end.

(** One turn of the loop of [extract_apis]. *)
Definition extract_step (crate_name : string) (apis : PyDict.t ApiItem)
    (raw : string) : PyDict.t ApiItem :=
  match line_entry crate_name raw with
  | Some (normalized_path, item) => PyDict.set normalized_path item apis
  | None => apis
  end.

Definition extract_lines (crate_name : string) (lines : list string)
    : PyDict.t ApiItem :=
  fold_left (extract_step crate_name) lines [].

Definition extract_apis (output crate_name : string) : PyDict.t ApiItem :=
  extract_lines crate_name (PyStr.splitlines output).

(** One turn of the loop of [categorize_by_module]. *)
Definition categorize_step (by_module : PyDict.t (list ApiItem))
    (item : ApiItem) : PyDict.t (list ApiItem) :=
  let parts := PyStr.split "::" (path item) in
  if (2 <=? length parts)%nat then
    let module := if (1 <? length parts)%nat then nth 1 parts EmptyString else "root" in
    PyDict.append_to module item by_module
  else by_module.

Definition categorize_by_module (apis : PyDict.t ApiItem)
    : PyDict.t (list ApiItem) :=
  fold_left categorize_step (PyDict.values apis) [].

(** [parts[1] if len(parts) > 1 else "root"] of [generate_markdown] *)
Definition module_of_key (key : string) : string :=
  let parts := PyStr.split "::" key in
  if (1 <? length parts)%nat then nth 1 parts EmptyString else "root".

(** The grouping loops of [generate_markdown]: [None] is the [KeyError]
    of [apis[key]]. *)
Fixpoint group_keys (apis : PyDict.t ApiItem) (keys : list string)
    (by_module : PyDict.t (list ApiItem)) : option (PyDict.t (list ApiItem)) :=
  match keys with
  | [] => Some by_module
  | key :: keys' =>
      match PyDict.get key apis with
      | None => None
      | Some item =>
          group_keys apis keys' (PyDict.append_to (module_of_key key) item by_module)
      end
  end.

(** The line shown for an item: its signature without the crate prefix. *)
Definition shown_signature (crate_prefix : string) (item : ApiItem) : string :=
  PyStr.replace crate_prefix EmptyString (signature item).

(** The lines of one module subsection, for the items in the order given. *)
Definition render_module (crate_prefix module : string) (items : list ApiItem)
    : list string :=
  [ "### " +:+ module; EmptyString; "```rust" ]
  ++ map (shown_signature crate_prefix) items
  ++ [ "```"; EmptyString ].

(** The rendering loops of [generate_markdown]. *)
Definition render_modules (crate_prefix : string)
    (by_module : PyDict.t (list ApiItem)) : list string :=
  flat_map
    (fun module =>
       render_module crate_prefix module
         (sorted_by name (PyDict.get_list module by_module)))
    (sorted (PyDict.keys by_module)).

Definition summary_lines (n_common n_zenoh_only n_rcl_only : nat) : list string :=
  [ "# Oxidros API Reference";
    EmptyString;
    "This document is auto-generated by `scripts/generate_api_docs.py`.";
    EmptyString;
    "## Summary";
    EmptyString;
    "| Category | Count |";
    "|----------|-------|";
    "| Common APIs | " +:+ PyStr.str_of_nat n_common +:+ " |";
    "| Zenoh-only APIs | " +:+ PyStr.str_of_nat n_zenoh_only +:+ " |";
    "| RCL-only APIs | " +:+ PyStr.str_of_nat n_rcl_only +:+ " |";
    EmptyString;
    "---";
    EmptyString ].

Definition common_heading : list string :=
  [ "## Common APIs (Both Backends)";
    EmptyString;
    "These APIs are available in both `oxidros-rcl` and `oxidros-zenoh` with the same signature.";
    EmptyString ].

Definition zenoh_heading : list string :=
  [ "---"; EmptyString; "## Zenoh-Only APIs"; EmptyString;
    "These APIs are specific to `oxidros-zenoh`."; EmptyString ].

Definition rcl_heading : list string :=
  [ "---"; EmptyString; "## RCL-Only APIs"; EmptyString;
    "These APIs are specific to `oxidros-rcl`."; EmptyString ].

(** The three key sets of [generate_markdown]. *)
Definition key_set (apis : PyDict.t ApiItem) : gset string :=
  list_to_set (PyDict.keys apis).

Definition common_keys (zenoh_apis rcl_apis : PyDict.t ApiItem) : gset string :=
  key_set zenoh_apis ∩ key_set rcl_apis.

Definition zenoh_only_keys (zenoh_apis rcl_apis : PyDict.t ApiItem) : gset string :=
  key_set zenoh_apis ∖ key_set rcl_apis.

Definition rcl_only_keys (zenoh_apis rcl_apis : PyDict.t ApiItem) : gset string :=
  key_set rcl_apis ∖ key_set zenoh_apis.

(** The Common section below its heading. *)
Definition common_section (zenoh_apis rcl_apis : PyDict.t ApiItem)
    : option (list string) :=
  common_by_module ←
    group_keys zenoh_apis (sorted (elements (common_keys zenoh_apis rcl_apis))) [];
  Some (render_modules "oxidros_zenoh::" common_by_module).

Definition zenoh_section (zenoh_apis rcl_apis : PyDict.t ApiItem)
    : option (list string) :=
  zenoh_by_module ←
    group_keys zenoh_apis (sorted (elements (zenoh_only_keys zenoh_apis rcl_apis))) [];
  Some (render_modules "oxidros_zenoh::" zenoh_by_module).

Definition rcl_section (zenoh_apis rcl_apis : PyDict.t ApiItem)
    : option (list string) :=
  rcl_by_module ←
    group_keys rcl_apis (sorted (elements (rcl_only_keys zenoh_apis rcl_apis))) [];
  Some (render_modules "oxidros_rcl::" rcl_by_module).

(** The [lines] of [generate_markdown] when it reaches the write. *)
Definition generate_markdown_lines (zenoh_apis rcl_apis : PyDict.t ApiItem)
    : option (list string) :=
  let common := common_keys zenoh_apis rcl_apis in
  let zenoh_only := zenoh_only_keys zenoh_apis rcl_apis in
  let rcl_only := rcl_only_keys zenoh_apis rcl_apis in
  common_lines ← common_section zenoh_apis rcl_apis;
  zenoh_lines ← zenoh_section zenoh_apis rcl_apis;
  rcl_lines ← rcl_section zenoh_apis rcl_apis;
  Some (summary_lines (size common) (size zenoh_only) (size rcl_only)
        ++ common_heading ++ common_lines
        ++ zenoh_heading ++ zenoh_lines
        ++ rcl_heading ++ rcl_lines).

(** The text [generate_markdown] writes to [output_path]. *)
Definition generate_markdown (zenoh_apis rcl_apis : PyDict.t ApiItem)
    : option string :=
  PyStr.join (String "010" EmptyString) <$> generate_markdown_lines zenoh_apis rcl_apis.

(** The lines [main] has [generate_markdown] write, from the results of
    the two runs of the external tool. *)
Definition main_lines (zenoh_result rcl_result : CompletedProcess)
    : option (list string) :=
  let zenoh_output := snd (run_cargo_public_api "oxidros-zenoh" zenoh_result) in
  let zenoh_apis := extract_apis zenoh_output "oxidros_zenoh" in
  let rcl_output := snd (run_cargo_public_api "oxidros-rcl" rcl_result) in
  let rcl_apis := extract_apis rcl_output "oxidros_rcl" in
  generate_markdown_lines zenoh_apis rcl_apis.

(* ===================================================================== *)
(** ** Notions the statements use                                         *)
(* ===================================================================== *)

(** The four skips of [parse_api_line] taken together: the noise filter. *)
Definition is_noise (kind path line : string) : bool :=
  PyStr.any_in dependency_fragments path
  || PyStr.any_in auto_derived_methods line
  || (String.eqb kind "type" && PyStr.any_in trait_type_fragments path)
  || (String.eqb kind "const" && PyStr.contains "::ALIGN" path).

(** A text without white space, as [\S+] matches it. *)
Fixpoint no_space (s : string) : bool :=
  match s with
  | EmptyString => true
  | String c r => negb (PyStr.is_space c) && no_space r
  end.


(** The module subsections of a section, in the order they are rendered:
    each module with its items in the order they are shown. *)
Definition module_groups (by_module : PyDict.t (list ApiItem))
    : list (string * list ApiItem) :=
  map (fun module => (module, sorted_by name (PyDict.get_list module by_module)))
      (sorted (PyDict.keys by_module)).

Definition render_group (crate_prefix : string) (g : string * list ApiItem)
    : list string :=
  render_module crate_prefix (fst g) (snd g).


(** The lines of a module subsection that are not signatures. *)
Definition is_frame_line (line : string) : Prop :=
  line = EmptyString \/ line = "```rust" \/ line = "```"
  \/ exists module, line = "### " +:+ module.


(** The items the grouping loops of [generate_markdown] file under a
    module: the records of the keys of that module, in the order of the
    keys. *)
Definition items_of_module (apis : PyDict.t ApiItem) (keys : list string)
    (m : string) : list ApiItem :=
  omap (fun key => PyDict.get key apis)
       (filter (fun key => module_of_key key = m) keys).

(** A text of white space only, as [strip] removes it. *)
Fixpoint all_space (s : string) : bool :=
  match s with
  | EmptyString => true
  | String c r => PyStr.is_space c && all_space r
  end.

(** The kinds of the six patterns [^pub (kw) (\S+)]. *)
Definition keyword_kinds : list string :=
  [ "struct"; "enum"; "type"; "const"; "mod"; "trait" ].

(** No separator starts inside [cur] when [cur] is followed by [s]. *)
Definition no_start (sep cur s : string) : Prop :=
  forall u v, cur = u +:+ v -> v <> EmptyString ->
              String.prefix sep (v +:+ s) = false.

(* ===================================================================== *)
(** ** The model on concrete inputs                                       *)
(* ===================================================================== *)

Example replace_crate_name :
  PyStr.replace "oxidros_zenoh" "oxidros" "oxidros_zenoh::Context::new"
  = "oxidros::Context::new".
Proof. reflexivity. Qed.

Example replace_leftmost_first : PyStr.replace "aa" "b" "aaa" = "ba".
Proof. reflexivity. Qed.

Example replace_empty_pattern : PyStr.replace EmptyString "-" "ab" = "-a-b-".
Proof. reflexivity. Qed.

Example split_leftmost_first : PyStr.split "::" "a:::b" = ["a"; ":b"].
Proof. reflexivity. Qed.

Example split_empty_text : PyStr.split "::" EmptyString = [EmptyString].
Proof. reflexivity. Qed.

Example split_trailing_separator : PyStr.split "::" "a::b::" = ["a"; "b"; EmptyString].
Proof. reflexivity. Qed.

Example strip_both_ends : PyStr.strip "  pub fn a  b   " = "pub fn a  b".
Proof. reflexivity. Qed.

Example splitlines_boundaries :
  PyStr.splitlines
    ("a" +:+ String "013" (String "010" (String "010" ("b" +:+ String "010" EmptyString))))
  = ["a"; EmptyString; "b"].
Proof. reflexivity. Qed.

Example splitlines_empty_text : PyStr.splitlines EmptyString = [].
Proof. reflexivity. Qed.

Example str_of_nat_decimal :
  PyStr.str_of_nat 0 = "0" /\ PyStr.str_of_nat 120 = "120".
Proof. split; reflexivity. Qed.

Example sorted_is_stable :
  sorted_by fst [("b", 1); ("a", 2); ("b", 3); ("a", 4)]
  = [("a", 2); ("a", 4); ("b", 1); ("b", 3)].
Proof. reflexivity. Qed.

Example parse_method :
  parse_api_line "pub fn oxidros_zenoh::Context::new() -> Self" "oxidros_zenoh"
  = Some (mkApiItem "fn" "oxidros_zenoh::Context::new"
            "pub fn oxidros_zenoh::Context::new() -> Self"
            "new" "oxidros_zenoh::Context").
Proof. reflexivity. Qed.

Example parse_synthesized_method :
  parse_api_line "pub fn oxidros_zenoh::Context::clone(&self) -> Self" "oxidros_zenoh"
  = None.
Proof. reflexivity. Qed.

(** The function pattern backtracks to the last parenthesis of the first
    blank-free token. *)
Example parse_fn_last_parenthesis :
  parse_api_line "pub fn oxidros_zenoh::run(f:fn(u32))" "oxidros_zenoh"
  = Some (mkApiItem "fn" "oxidros_zenoh::run(f:fn"
            "pub fn oxidros_zenoh::run(f:fn(u32))" "run(f:fn" "oxidros_zenoh").
Proof. reflexivity. Qed.

Example parse_constant_keeps_colon :
  parse_api_line "pub const oxidros_zenoh::MAX: usize = 8" "oxidros_zenoh"
  = Some (mkApiItem "const" "oxidros_zenoh::MAX:"
            "pub const oxidros_zenoh::MAX: usize = 8" "MAX:" "oxidros_zenoh").
Proof. reflexivity. Qed.

Example parse_align_constant :
  parse_api_line "pub const oxidros_zenoh::Pointable::ALIGN: usize = 8" "oxidros_zenoh"
  = None.
Proof. reflexivity. Qed.

Example parse_foreign_crate :
  parse_api_line "pub struct tokio::Runtime" "oxidros_zenoh" = None.
Proof. reflexivity. Qed.

Example parse_generic_guard_alias :
  parse_api_line "pub type oxidros_zenoh::Lock::Guard<'a> = MutexGuard<'a>" "oxidros_zenoh"
  = None.
Proof. reflexivity. Qed.

(** The end-to-end example of the specification. *)
Example end_to_end :
  let zenoh_apis :=
    extract_apis
      ("pub fn oxidros_zenoh::Context::new() -> Self" +:+ String "010"
       "pub fn oxidros_zenoh::Context::clone(&self) -> Self") "oxidros_zenoh" in
  let rcl_apis :=
    extract_apis "pub fn oxidros_rcl::Context::new() -> Self" "oxidros_rcl" in
  PyDict.keys zenoh_apis = ["oxidros::Context::new"]
  /\ PyDict.keys rcl_apis = ["oxidros::Context::new"]
  /\ generate_markdown_lines zenoh_apis rcl_apis
     = Some (summary_lines 1 0 0
             ++ common_heading
             ++ ["### Context"; EmptyString; "```rust";
                 "pub fn Context::new() -> Self"; "```"; EmptyString]
             ++ zenoh_heading ++ rcl_heading).
Proof. repeat split; vm_compute; reflexivity. Qed.

(* ===================================================================== *)
(** ** Facts about the string primitives                                  *)
(* ===================================================================== *)

Section StringFacts.

Lemma append_length (s t : string) :
  String.length (s +:+ t) = String.length s + String.length t.
Proof. induction s as [|a s IH]; simpl; [reflexivity | now rewrite IH]. Qed.

Lemma prefix_cons (a b : ascii) (p s : string) :
  String.prefix (String a p) (String b s) = true <->
  a = b /\ String.prefix p s = true.
Proof.
  simpl. destruct (ascii_dec a b) as [->|Hne].
  - split; [intros H; now split | now intros [_ H]].
  - split; [discriminate | intros [E _]; contradiction].
Qed.

Lemma prefix_length (p s : string) :
  String.prefix p s = true -> String.length p <= String.length s.
Proof.
  revert s. induction p as [|a p IH]; intros s H; simpl; [lia|].
  destruct s as [|b s]; [discriminate|].
  apply prefix_cons in H as [_ H]. apply IH in H. simpl. lia.
Qed.

Lemma prefix_append (p s : string) : String.prefix p (p +:+ s) = true.
Proof.
  induction p as [|a p IH]; simpl; [now destruct s|].
  destruct (ascii_dec a a); [assumption | contradiction].
Qed.

Lemma prefix_split (p s : string) :
  String.prefix p s = true -> exists r, s = p +:+ r.
Proof.
  revert s. induction p as [|a p IH]; intros s H.
  - now exists s.
  - destruct s as [|b s]; [discriminate|].
    apply prefix_cons in H as [-> H]. destruct (IH _ H) as [r ->].
    now exists r.
Qed.

Lemma contains_cons_false (c : string) (a : ascii) (r : string) :
  PyStr.contains c (String a r) = false ->
  String.prefix c (String a r) = false /\ PyStr.contains c r = false.
Proof.
  intros H. change (PyStr.contains c (String a r))
    with (String.prefix c (String a r) || PyStr.contains c r) in H.
  now apply orb_false_iff in H.
Qed.

Lemma contains_prefix (c s : string) :
  String.prefix c s = true -> PyStr.contains c s = true.
Proof. intros H. destruct s; simpl in *; rewrite H; reflexivity. Qed.

Lemma contains_cons (c : string) (a : ascii) (r : string) :
  PyStr.contains c r = true -> PyStr.contains c (String a r) = true.
Proof.
  intros H. change (PyStr.contains c (String a r))
    with (String.prefix c (String a r) || PyStr.contains c r).
  rewrite H. apply orb_true_r.
Qed.

(** A text without an occurrence of [old] is left as it is. *)
Lemma replace_from_absent (old new s : string) :
  PyStr.contains old s = false -> PyStr.replace_from old new 0 s = s.
Proof.
  induction s as [|a r IH]; intros H; [reflexivity|].
  apply contains_cons_false in H as [Hp Hr].
  cbn [PyStr.replace_from]. rewrite Hp. now rewrite IH.
Qed.

(** With a replacement no longer than [old], the result is no longer
    than the text, less the characters still to be skipped. *)
Lemma replace_from_length (old new : string) :
  String.length new <= String.length old ->
  forall s k, k <= String.length s ->
    String.length (PyStr.replace_from old new k s) + k <= String.length s.
Proof.
  intros Hlen. induction s as [|a r IH]; intros k Hk.
  - simpl in *. lia.
  - destruct k as [|k]; cbn [PyStr.replace_from].
    + destruct (String.prefix old (String a r)) eqn:Hp.
      * apply prefix_length in Hp. simpl in Hp.
        rewrite append_length.
        specialize (IH (String.length old - 1)). simpl. lia.
      * simpl. specialize (IH 0). lia.
    + simpl in Hk |- *. specialize (IH k). lia.
Qed.

(** With a shorter replacement, an occurrence makes the result shorter. *)
Lemma replace_from_shrinks (old new s : string) :
  String.length new < String.length old ->
  PyStr.contains old s = true ->
  String.length (PyStr.replace_from old new 0 s) < String.length s.
Proof.
  intros Hlen. induction s as [|a r IH]; intros H.
  - simpl in H. destruct old; simpl in *; [lia | discriminate].
  - cbn [PyStr.replace_from].
    destruct (String.prefix old (String a r)) eqn:Hp.
    + pose proof (prefix_length _ _ Hp) as Hl. simpl in Hl.
      rewrite append_length.
      pose proof (replace_from_length old new ltac:(lia) r
                    (String.length old - 1) ltac:(lia)).
      simpl. lia.
    + change (PyStr.contains old (String a r))
        with (String.prefix old (String a r) || PyStr.contains old r) in H.
      rewrite Hp in H. simpl in H. apply IH in H. simpl. lia.
Qed.

End StringFacts.

(* ===================================================================== *)
(** ** Facts about the patterns                                           *)
(* ===================================================================== *)

Section PatternFacts.

Lemma after_prefix_spec (p s r : string) :
  Re.after_prefix p s = Some r <-> s = p +:+ r.
Proof.
  revert s. induction p as [|a p IH]; intros s; simpl.
  - split; [now intros [= ->] | now intros ->].
  - destruct s as [|b s]; [split; discriminate|].
    destruct (Ascii.eqb_spec a b) as [->|Hne].
    + rewrite IH. split; [now intros -> | now intros [= ->]].
    + split; [discriminate | intros [= E _]; congruence].
Qed.

Lemma after_prefix_append (p r : string) : Re.after_prefix p (p +:+ r) = Some r.
Proof. now apply after_prefix_spec. Qed.

Lemma append_assoc (s t u : string) : (s +:+ t) +:+ u = s +:+ t +:+ u.
Proof.
  induction s as [|a s IH]; [reflexivity|].
  change (String a ((s +:+ t) +:+ u) = String a (s +:+ t +:+ u)).
  now rewrite IH.
Qed.

Lemma prefix_append_l (p s x : string) :
  String.prefix p s = true -> String.prefix p (s +:+ x) = true.
Proof.
  intros H. apply prefix_split in H as [r ->].
  rewrite append_assoc. apply prefix_append.
Qed.

(** Every pattern asks for the text [pub ] at the head of the line. *)
Lemma after_prefix_pub (p line r : string) :
  Re.after_prefix ("pub " +:+ p) line = Some r ->
  PyStr.startswith "pub " line = true.
Proof.
  intros H. apply after_prefix_spec in H as ->.
  unfold PyStr.startswith. apply prefix_append_l, prefix_append.
Qed.

Lemma match_keyword_pub (kw line path : string) :
  Re.match_keyword kw line = Some path -> PyStr.startswith "pub " line = true.
Proof.
  unfold Re.match_keyword.
  destruct (Re.after_prefix _ line) eqn:H; [|discriminate].
  intros _. exact (after_prefix_pub _ _ _ H).
Qed.

Lemma match_fn_pub (line path : string) :
  Re.match_fn line = Some path -> PyStr.startswith "pub " line = true.
Proof.
  unfold Re.match_fn.
  destruct (Re.after_prefix _ line) eqn:H; [|discriminate].
  intros _. exact (after_prefix_pub "fn " _ _ H).
Qed.

Lemma first_match_pub (line kind path : string) :
  first_match patterns line = Some (kind, path) ->
  PyStr.startswith "pub " line = true.
Proof.
  unfold patterns. cbn [first_match].
  destruct (Re.match_fn line) eqn:Hfn; [intros _; eauto using match_fn_pub|].
  repeat match goal with
  | |- context [Re.match_keyword ?kw line] =>
      let H := fresh "Hkw" in
      destruct (Re.match_keyword kw line) eqn:H;
      [intros _; eauto using match_keyword_pub|]
  end.
  discriminate.
Qed.

(** The parser itself rejects a line that does not start with [pub ]. *)
Lemma parse_api_line_requires_pub (line crate_name : string) :
  PyStr.startswith "pub " line = false -> parse_api_line line crate_name = None.
Proof.
  intros H. unfold parse_api_line.
  destruct (first_match patterns line) as [[k p]|] eqn:Hm; [|reflexivity].
  apply first_match_pub in Hm. congruence.
Qed.

(** [on_match] through the noise filter. *)
Lemma on_match_noise (kind path line crate_name : string) :
  on_match kind path line crate_name =
  if negb (PyStr.startswith crate_name path) then None
  else if is_noise kind path line then None
  else Some (make_item kind path line).
Proof.
  unfold on_match, is_noise.
  destruct (negb _); [reflexivity|].
  destruct (PyStr.any_in dependency_fragments path); [reflexivity|].
  destruct (PyStr.any_in auto_derived_methods line); [reflexivity|].
  destruct (_ && _); [reflexivity|].
  destruct (_ && _); reflexivity.
Qed.

End PatternFacts.

(* ===================================================================== *)
(** ** Facts about [split] and the last segment                           *)
(* ===================================================================== *)

Section SplitFacts.

Lemma append_nil_r (s : string) : s +:+ EmptyString = s.
Proof.
  induction s as [|a s IH]; [reflexivity|].
  change (String a (s +:+ EmptyString) = String a s). now rewrite IH.
Qed.

Lemma prefix_refl (s : string) : String.prefix s s = true.
Proof. rewrite <- (append_nil_r s) at 2. apply prefix_append. Qed.

Lemma contains_append_r (c u : string) : PyStr.contains c (u +:+ c) = true.
Proof.
  induction u as [|a u IH].
  - apply contains_prefix, prefix_refl.
  - change (String a u +:+ c) with (String a (u +:+ c)).
    now apply contains_cons.
Qed.

Lemma any_in_intro (x : string) (xs : list string) (s : string) :
  In x xs -> PyStr.contains x s = true -> PyStr.any_in xs s = true.
Proof. intros Hin Hc. apply existsb_exists. eauto. Qed.

Lemma split_from_nonempty (sep : string) (s : string) :
  forall k cur, PyStr.split_from sep k cur s <> [].
Proof.
  induction s as [|a r IH]; intros k cur; [discriminate|].
  cbn [PyStr.split_from]. destruct k as [|k]; [|apply IH].
  destruct (String.prefix sep (String a r)); [discriminate | apply IH].
Qed.

Lemma last_cons_nonempty {A : Type} (x d : A) (l : list A) :
  l <> [] -> List.last (x :: l) d = List.last l d.
Proof. destruct l; [contradiction | reflexivity]. Qed.

(** Either the text has no separator and is one segment, or it ends
    with a separator followed by the last segment. *)
Lemma split_from_last (d : string) (n : nat) :
  forall s cur, String.length s <= n ->
    PyStr.split_from "::" 0 cur s = [cur +:+ s]
    \/ exists u, s = u +:+ "::" +:+ List.last (PyStr.split_from "::" 0 cur s) d.
Proof.
  induction n as [|n IH]; intros s cur Hn.
  - destruct s; [|simpl in Hn; lia]. left. now rewrite append_nil_r.
  - destruct s as [|a r]; [left; now rewrite append_nil_r|].
    cbn [PyStr.split_from].
    destruct (String.prefix "::" (String a r)) eqn:Hp.
    + right. apply prefix_split in Hp as [r' E].
      change ("::" +:+ r') with (String ":" (String ":" r')) in E.
      injection E as -> ->.
      change (PyStr.split_from "::" (String.length "::" - 1) EmptyString
                (String ":" r'))
        with (PyStr.split_from "::" 0 EmptyString r').
      rewrite last_cons_nonempty by apply split_from_nonempty.
      destruct (IH r' EmptyString) as [E|[u E]]; [simpl in Hn; lia| |].
      * rewrite E. exists EmptyString. reflexivity.
      * exists ("::" +:+ u). rewrite E at 1. reflexivity.
    + destruct (IH r (cur +:+ String a EmptyString)) as [E|[u E]];
        [simpl in Hn; lia| |].
      * left. rewrite E, append_assoc. reflexivity.
      * right. exists (String a u). rewrite E at 1. reflexivity.
Qed.

(** A path of two segments or more holds [::] followed by its last
    segment. *)
Lemma last_segment_in_path (p d : string) :
  2 <= length (PyStr.split "::" p) ->
  PyStr.contains ("::" +:+ List.last (PyStr.split "::" p) d) p = true.
Proof.
  intros Hlen. unfold PyStr.split in *.
  destruct (split_from_last d (String.length p) p EmptyString (le_n _))
    as [E|[u E]].
  - rewrite E in Hlen. simpl in Hlen. lia.
  - rewrite E at 2. apply contains_append_r.
Qed.

End SplitFacts.

(* ===================================================================== *)
(** ** Facts about the function pattern                                   *)
(* ===================================================================== *)

Section FnPatternFacts.

Lemma append_cons (a : ascii) (s t : string) :
  String a s +:+ t = String a (s +:+ t).
Proof. reflexivity. Qed.

Lemma span_nonspace_append (p r : string) :
  no_space p = true ->
  Re.span_nonspace (p +:+ r) = p +:+ Re.span_nonspace r.
Proof.
  induction p as [|a p IH]; intros H; [reflexivity|].
  cbn [no_space] in H. apply andb_true_iff in H as [Ha Hp].
  rewrite !append_cons. cbn [Re.span_nonspace].
  apply negb_true_iff in Ha. rewrite Ha. now rewrite IH.
Qed.

Lemma no_space_append (p q : string) :
  no_space p = true -> no_space q = true -> no_space (p +:+ q) = true.
Proof.
  induction p as [|a p IH]; intros Hp Hq; [exact Hq|].
  cbn [no_space] in Hp. apply andb_true_iff in Hp as [Ha Hp].
  rewrite append_cons. cbn [no_space]. rewrite Ha. now apply IH.
Qed.

(** The greedy run before the parenthesis reaches at least a given
    parenthesis. *)
Lemma upto_last_paren_reaches (b w : string) :
  exists x, Re.upto_last_paren (b +:+ String "(" w) = Some (b +:+ x).
Proof.
  induction b as [|c b [x IH]].
  - change (EmptyString +:+ String "(" w) with (String "(" w).
    cbn [Re.upto_last_paren].
    destruct (Re.upto_last_paren w) as [y|].
    + now exists (String "(" y).
    + now exists EmptyString.
  - exists x. rewrite !append_cons. cbn [Re.upto_last_paren]. now rewrite IH.
Qed.

(** When the scoped pattern matches, it matches up to the last
    parenthesis of the token. *)
Lemma scoped_then_paren_upto (t q : string) :
  Re.scoped_then_paren t = Some q -> Re.upto_last_paren t = Some q.
Proof.
  revert q. induction t as [|c r IH]; intros q; [discriminate|].
  cbn [Re.scoped_then_paren Re.upto_last_paren].
  destruct (Re.scoped_then_paren r) as [p|].
  - intros [= <-]. now rewrite (IH p eq_refl).
  - destruct (Re.after_prefix "::" (String c r)) as [u|] eqn:Hu; [|discriminate].
    apply after_prefix_spec in Hu.
    change ("::" +:+ u) with (String ":" (String ":" u)) in Hu.
    injection Hu as -> ->.
    destruct u as [|c' r']; [discriminate|].
    cbn [Re.segment_then_paren Re.upto_last_paren].
    destruct (Re.upto_last_paren r') as [x|]; [|discriminate].
    intros [= <-]. reflexivity.
Qed.

(** The scoped pattern matches a token that holds [::], a segment and a
    parenthesis. *)
Lemma scoped_then_paren_matches (a b w : string) :
  b <> EmptyString ->
  exists q, Re.scoped_then_paren (a +:+ "::" +:+ b +:+ String "(" w) = Some q.
Proof.
  intros Hb. induction a as [|c a [q IH]].
  - set (u := b +:+ String "(" w).
    change (EmptyString +:+ "::" +:+ u) with (String ":" (String ":" u)).
    remember (String ":" u) as r eqn:Hr.
    cbn [Re.scoped_then_paren].
    destruct (Re.scoped_then_paren r) as [p|]; [now eexists|].
    subst r. change (String ":" (String ":" u)) with ("::" +:+ u).
    rewrite after_prefix_append. subst u.
    destruct b as [|c b]; [contradiction|].
    rewrite append_cons. cbn [Re.segment_then_paren].
    destruct (upto_last_paren_reaches b w) as [x ->]. now eexists.
  - rewrite append_cons. cbn [Re.scoped_then_paren]. rewrite IH. now eexists.
Qed.

(** Group 2 of the function pattern on a token [a::b(w]: it starts with
    [a::b]. *)
Lemma scoped_path_reaches (a b w : string) :
  a <> EmptyString -> b <> EmptyString ->
  exists x, Re.scoped_path ((a +:+ "::" +:+ b) +:+ String "(" w)
            = Some ((a +:+ "::" +:+ b) +:+ x).
Proof.
  intros Ha Hb. destruct a as [|c a]; [contradiction|].
  rewrite (append_assoc (String c a)), (append_assoc "::").
  rewrite append_cons. cbn [Re.scoped_path].
  destruct (scoped_then_paren_matches a b w Hb) as [q Hq].
  rewrite Hq. apply scoped_then_paren_upto in Hq.
  destruct (upto_last_paren_reaches (a +:+ "::" +:+ b) w) as [x Hx].
  rewrite !append_assoc in Hx. rewrite Hq in Hx. injection Hx as ->.
  exists x. cbn [option_map]. now rewrite !append_assoc.
Qed.

Lemma first_match_fn (line path : string) :
  Re.match_fn line = Some path -> first_match patterns line = Some ("fn", path).
Proof. intros H. unfold patterns. cbn [first_match]. now rewrite H. Qed.

End FnPatternFacts.

(* ===================================================================== *)
(** ** Facts about [dict]                                                 *)
(* ===================================================================== *)

Section DictFacts.
Context {V : Type}.
Implicit Types (d : PyDict.t V) (k : string) (v : V).

Lemma get_set_eq k v d : PyDict.get k (PyDict.set k v d) = Some v.
Proof.
  induction d as [|[k' v'] d IH]; cbn [PyDict.set PyDict.get].
  - now rewrite String.eqb_refl.
  - destruct (String.eqb_spec k k') as [->|Hne]; cbn [PyDict.get].
    + now rewrite String.eqb_refl.
    + now destruct (String.eqb_spec k k').
Qed.

Lemma get_set_ne k k' v d :
  k <> k' -> PyDict.get k' (PyDict.set k v d) = PyDict.get k' d.
Proof.
  intros Hne. induction d as [|[k0 v0] d IH]; cbn [PyDict.set PyDict.get].
  - destruct (String.eqb_spec k' k); congruence.
  - destruct (String.eqb_spec k k0) as [->|Hk]; cbn [PyDict.get].
    + destruct (String.eqb_spec k' k0); congruence.
    + now rewrite IH.
Qed.

Lemma keys_set k v d :
  forall x, In x (PyDict.keys (PyDict.set k v d)) <-> x = k \/ In x (PyDict.keys d).
Proof.
  intros x. induction d as [|[k0 v0] d IH]; cbn [PyDict.set PyDict.keys map fst In].
  - intuition.
  - destruct (String.eqb_spec k k0) as [->|Hk];
      cbn [PyDict.keys map fst In] in *; intuition.
Qed.

Lemma get_is_Some_keys k d :
  is_Some (PyDict.get k d) <-> In k (PyDict.keys d).
Proof.
  induction d as [|[k0 v0] d IH]; cbn [PyDict.get PyDict.keys map fst In].
  - split; [intros [? [=]] | contradiction].
  - destruct (String.eqb_spec k k0) as [->|Hk].
    + split; [now left | intros _; now eexists].
    + rewrite IH. cbn [PyDict.keys]. intuition congruence.
Qed.

End DictFacts.

(* ===================================================================== *)
(** ** Registry construction                                              *)
(* ===================================================================== *)

Section Registry.
Variable crate_name : string.

Lemma extract_lines_app (ls ls' : list string) :
  extract_lines crate_name (ls ++ ls')
  = fold_left (extract_step crate_name) ls' (extract_lines crate_name ls).
Proof. unfold extract_lines. apply fold_left_app. Qed.

(** Lines with no entry at [key] leave the registry's value at [key]. *)
Lemma fold_extract_other_lines (key : string) (ls : list string) :
  (forall l item, In l ls -> line_entry crate_name l <> Some (key, item)) ->
  forall apis,
    PyDict.get key (fold_left (extract_step crate_name) ls apis)
    = PyDict.get key apis.
Proof.
  induction ls as [|l ls IH]; intros Hno apis; [reflexivity|].
  cbn [fold_left]. rewrite IH.
  - unfold extract_step.
    destruct (line_entry crate_name l) as [[k item]|] eqn:He; [|reflexivity].
    apply get_set_ne. intros ->. exact (Hno l item (or_introl eq_refl) He).
  - intros l' item Hin. apply Hno. now right.
Qed.

(** Two registries that agree at [key] still agree at [key] after the
    same lines. *)
Lemma fold_extract_agree (key : string) (ls : list string) :
  forall apis apis',
    PyDict.get key apis = PyDict.get key apis' ->
    PyDict.get key (fold_left (extract_step crate_name) ls apis)
    = PyDict.get key (fold_left (extract_step crate_name) ls apis').
Proof.
  induction ls as [|l ls IH]; intros apis apis' Hag; [exact Hag|].
  cbn [fold_left]. apply IH. unfold extract_step.
  destruct (line_entry crate_name l) as [[k item]|]; [|exact Hag].
  destruct (String.eqb_spec k key) as [->|Hne].
  - now rewrite !get_set_eq.
  - now rewrite !get_set_ne.
Qed.

(** Taking a line with entry at [key] out of the listing changes
    nothing at another key. *)
Lemma extract_lines_without (key key' : string) (item : ApiItem)
    (pre post : list string) (l : string) :
  line_entry crate_name l = Some (key, item) -> key' <> key ->
  PyDict.get key' (extract_lines crate_name (pre ++ l :: post))
  = PyDict.get key' (extract_lines crate_name (pre ++ post)).
Proof.
  intros He Hne. rewrite !extract_lines_app. cbn [fold_left].
  apply fold_extract_agree. unfold extract_step. rewrite He.
  apply get_set_ne. congruence.
Qed.

End Registry.

(* ===================================================================== *)
(** ** Facts about [sorted]                                               *)
(* ===================================================================== *)

Section SortedFacts.
Context {A : Type} (key : A -> string).



Lemma insert_by_perm (x : A) (l : list A) : insert_by key x l ≡ₚ x :: l.
Proof.
  induction l as [|y l IH]; cbn [insert_by]; [reflexivity|].
  destruct (String.leb (key x) (key y)); [reflexivity|].
  rewrite IH. apply Permutation_swap.
Qed.

Lemma sorted_by_perm (l : list A) : sorted_by key l ≡ₚ l.
Proof.
  induction l as [|x l IH]; [reflexivity|].
  cbn [sorted_by foldr]. rewrite insert_by_perm. now apply Permutation_skip.
Qed.

Lemma sorted_by_In (x : A) (l : list A) : In x (sorted_by key l) <-> In x l.
Proof. rewrite <- !list_elem_of_In. now rewrite sorted_by_perm. Qed.



End SortedFacts.


Lemma sorted_In (x : string) (l : list string) : In x (sorted l) <-> In x l.
Proof. apply sorted_by_In. Qed.


(* ===================================================================== *)
(** ** Facts about the grouping of [generate_markdown]                    *)
(* ===================================================================== *)

Section GroupFacts.

Lemma keys_set_NoDup {V : Type} (k : string) (v : V) (d : PyDict.t V) :
  NoDup (PyDict.keys d) -> NoDup (PyDict.keys (PyDict.set k v d)).
Proof.
  induction d as [|[k0 v0] d IH]; cbn [PyDict.set PyDict.keys map fst].
  - intros _. apply NoDup_singleton.
  - intros Hnd. apply NoDup_cons in Hnd as [Hk0 Hd].
    destruct (String.eqb_spec k k0) as [->|Hne];
      cbn [PyDict.keys map fst]; apply NoDup_cons.
    + now split.
    + split; [|now apply IH].
      rewrite list_elem_of_In. intros Hin.
      apply (keys_set k v d) in Hin as [E|Hin]; [congruence|].
      apply Hk0. now apply list_elem_of_In.
Qed.

Lemma get_list_append_to (m m' : string) (x : ApiItem)
    (d : PyDict.t (list ApiItem)) :
  PyDict.get_list m' (PyDict.append_to m x d)
  = if decide (m' = m) then PyDict.get_list m' d ++ [x]
    else PyDict.get_list m' d.
Proof.
  unfold PyDict.append_to, PyDict.get_list at 1.
  destruct (decide (m' = m)) as [->|Hne].
  - now rewrite get_set_eq.
  - rewrite get_set_ne by congruence. reflexivity.
Qed.

(** The grouping loop ends without [KeyError] when every key is a key
    of the registry. *)
Lemma group_keys_total (apis : PyDict.t ApiItem) (keys : list string) :
  (forall key, In key keys -> is_Some (PyDict.get key apis)) ->
  forall d0, is_Some (group_keys apis keys d0).
Proof.
  induction keys as [|key keys IH]; intros Hk d0; cbn [group_keys].
  - now eexists.
  - destruct (Hk key (or_introl eq_refl)) as [item ->].
    apply IH. intros k Hin. apply Hk. now right.
Qed.

(** Each module's list gains exactly the items of the keys of that
    module: no record is dropped and none is added. *)
Lemma group_keys_lists (apis : PyDict.t ApiItem) (keys : list string) :
  forall d0 d, group_keys apis keys d0 = Some d ->
  forall m, PyDict.get_list m d
            = PyDict.get_list m d0 ++ items_of_module apis keys m.
Proof.
  unfold items_of_module.
  induction keys as [|key keys IH]; intros d0 d; cbn [group_keys].
  - intros [= <-] m. cbn. now rewrite app_nil_r.
  - destruct (PyDict.get key apis) as [item|] eqn:Hget; [|discriminate].
    intros Hg m. rewrite (IH _ _ Hg m), get_list_append_to.
    rewrite filter_cons. destruct (decide (module_of_key key = m)) as [<-|Hne].
    + rewrite decide_True by reflexivity.
      change (omap ?f (key :: ?l)) with
        (match f key with Some y => y :: omap f l | None => omap f l end).
      cbn beta. rewrite Hget. now rewrite <- app_assoc.
    + rewrite decide_False by congruence. reflexivity.
Qed.

Lemma group_keys_keys (apis : PyDict.t ApiItem) (keys : list string) :
  forall d0 d, group_keys apis keys d0 = Some d ->
  forall m, In m (PyDict.keys d)
            <-> In m (PyDict.keys d0)
                \/ exists key, In key keys /\ module_of_key key = m.
Proof.
  induction keys as [|key keys IH]; intros d0 d; cbn [group_keys].
  - intros [= <-] m. split; [now left | intros [H|[k [[] _]]]; exact H].
  - destruct (PyDict.get key apis) as [item|] eqn:Hget; [|discriminate].
    intros Hg m. rewrite (IH _ _ Hg m). unfold PyDict.append_to.
    rewrite keys_set. split.
    + intros [[->|H]|[k [Hin Hm]]].
      * right. exists key. split; [now left | reflexivity].
      * now left.
      * right. exists k. split; [now right | exact Hm].
    + intros [H|[k [[<-|Hin] Hm]]].
      * left. now right.
      * left. now left.
      * right. now exists k.
Qed.

Lemma group_keys_NoDup (apis : PyDict.t ApiItem) (keys : list string) :
  forall d0 d, group_keys apis keys d0 = Some d ->
  NoDup (PyDict.keys d0) -> NoDup (PyDict.keys d).
Proof.
  induction keys as [|key keys IH]; intros d0 d; cbn [group_keys].
  - now intros [= <-].
  - destruct (PyDict.get key apis) as [item|]; [|discriminate].
    intros Hg Hnd. apply (IH _ _ Hg). now apply keys_set_NoDup.
Qed.

Lemma key_set_spec (apis : PyDict.t ApiItem) (key : string) :
  key ∈ key_set apis <-> is_Some (PyDict.get key apis).
Proof.
  unfold key_set. rewrite elem_of_list_to_set, list_elem_of_In.
  symmetry. apply get_is_Some_keys.
Qed.

(** Grouping the sorted keys of a set of keys of the registry. *)
Lemma group_set_total (apis : PyDict.t ApiItem) (keys : gset string) :
  keys ⊆ key_set apis ->
  is_Some (group_keys apis (sorted (elements keys)) []).
Proof.
  intros Hsub. apply group_keys_total. intros key Hin.
  apply sorted_In, list_elem_of_In, elem_of_elements in Hin.
  now apply key_set_spec, Hsub.
Qed.

Lemma render_modules_groups (crate_prefix : string)
    (by_module : PyDict.t (list ApiItem)) :
  render_modules crate_prefix by_module
  = flat_map (render_group crate_prefix) (module_groups by_module).
Proof.
  unfold render_modules, module_groups.
  induction (sorted (PyDict.keys by_module)) as [|m ms IH]; [reflexivity|].
  cbn [flat_map map]. now rewrite IH.
Qed.


End GroupFacts.

Section NormalizeCratePaths.

Lemma prefix_trans (a c s : string) :
  String.prefix a c = true -> String.prefix c s = true -> String.prefix a s = true.
Proof.
  intros Hac Hcs. apply prefix_split in Hcs as [r ->].
  now apply prefix_append_l.
Qed.

Lemma contains_of_prefix (a c s : string) :
  String.prefix a c = true -> PyStr.contains c s = true -> PyStr.contains a s = true.
Proof.
  intros Hac. induction s as [|x r IH]; intros H.
  - apply contains_prefix. apply (prefix_trans a c); [exact Hac|].
    simpl in H. now rewrite orb_false_r in H.
  - change (PyStr.contains c (String x r))
      with (String.prefix c (String x r) || PyStr.contains c r) in H.
    apply orb_true_iff in H as [H|H].
    + apply contains_prefix. now apply (prefix_trans a c).
    + apply contains_cons. now apply IH.
Qed.

Lemma replace_from_skip (old new u s : string) :
  PyStr.replace_from old new (String.length u) (u +:+ s)
  = PyStr.replace_from old new 0 s.
Proof.
  induction u as [|a u IH]; [now destruct s|].
  rewrite append_cons. cbn [String.length PyStr.replace_from]. exact IH.
Qed.

(** At an occurrence of [old] the replacement is emitted and the scan
    goes on after the occurrence. *)
Lemma replace_from_occurrence (old new s : string) :
  old <> EmptyString ->
  PyStr.replace_from old new 0 (old +:+ s)
  = new +:+ PyStr.replace_from old new 0 s.
Proof.
  intros Hne. destruct old as [|a o]; [contradiction|].
  rewrite append_cons. cbn [PyStr.replace_from].
  rewrite <- append_cons, prefix_append.
  replace (String.length (String a o) - 1) with (String.length o)
    by (cbn [String.length]; lia).
  now rewrite replace_from_skip.
Qed.

Lemma contains_unfold (c : string) (a : ascii) (r : string) :
  PyStr.contains c (String a r) = String.prefix c (String a r) || PyStr.contains c r.
Proof. reflexivity. Qed.

(** A prefix test between texts whose known characters decide it. *)
Ltac prefix_decided :=
  match goal with
  | |- String.prefix ?p ?s = false =>
      let E := fresh "E" in
      destruct (String.prefix p s) eqn:E; [exfalso|reflexivity];
      repeat (apply prefix_cons in E as [? E]; try discriminate)
  end.

Ltac prefixes_decided :=
  repeat match goal with
  | |- context [String.prefix ?p (String ?a ?r)] =>
      let E := fresh "E" in
      assert (String.prefix p (String a r) = false) as E
        by (prefix_decided; congruence);
      rewrite E; clear E
  end.

(** The paths of a listing: the crate name, then text in which the
    placeholder does not occur and which does not go on with the rest of
    the crate name.  Such a path normalizes to the placeholder followed by
    that text, and normalizing again changes nothing. *)
Lemma normalize_zenoh_path (rest : string) :
  PyStr.contains "oxidros" rest = false ->
  PyStr.startswith "_zenoh" rest = false ->
  normalize_path "oxidros_zenoh" ("oxidros_zenoh" +:+ rest) = "oxidros" +:+ rest
  /\ normalize_path "oxidros_zenoh" ("oxidros" +:+ rest) = "oxidros" +:+ rest.
Proof.
  intros Hno Hnext.
  assert (PyStr.contains "oxidros_zenoh" rest = false) as Hc.
  { destruct (PyStr.contains "oxidros_zenoh" rest) eqn:E; [|reflexivity].
    apply (contains_of_prefix "oxidros") in E; [congruence | reflexivity]. }
  unfold normalize_path, PyStr.replace, PyStr.startswith in *. split.
  - rewrite replace_from_occurrence by discriminate.
    now rewrite replace_from_absent.
  - apply replace_from_absent.
    change ("oxidros" +:+ rest)
      with (String "o" (String "x" (String "i" (String "d" (String "r"
             (String "o" (String "s" rest))))))).
    rewrite !contains_unfold, Hc.
    prefixes_decided. reflexivity.
Qed.

Lemma normalize_rcl_path (rest : string) :
  PyStr.contains "oxidros" rest = false ->
  PyStr.startswith "_rcl" rest = false ->
  normalize_path "oxidros_rcl" ("oxidros_rcl" +:+ rest) = "oxidros" +:+ rest
  /\ normalize_path "oxidros_rcl" ("oxidros" +:+ rest) = "oxidros" +:+ rest.
Proof.
  intros Hno Hnext.
  assert (PyStr.contains "oxidros_rcl" rest = false) as Hc.
  { destruct (PyStr.contains "oxidros_rcl" rest) eqn:E; [|reflexivity].
    apply (contains_of_prefix "oxidros") in E; [congruence | reflexivity]. }
  unfold normalize_path, PyStr.replace, PyStr.startswith in *. split.
  - rewrite replace_from_occurrence by discriminate.
    now rewrite replace_from_absent.
  - apply replace_from_absent.
    change ("oxidros" +:+ rest)
      with (String "o" (String "x" (String "i" (String "d" (String "r"
             (String "o" (String "s" rest))))))).
    rewrite !contains_unfold, Hc.
    prefixes_decided. reflexivity.
Qed.

End NormalizeCratePaths.

(* ===================================================================== *)
(** ** The claims on the differ, the categorizer and the report           *)
(* ===================================================================== *)

(** C1: the three sets of the differ make a partition of the keys of the
    two registries: their union is the union of the two key sets, and
    they are pairwise disjoint. *)
Theorem partition_law (zenoh_apis rcl_apis : PyDict.t ApiItem) :
  common_keys zenoh_apis rcl_apis ∪ zenoh_only_keys zenoh_apis rcl_apis
    ∪ rcl_only_keys zenoh_apis rcl_apis
  = key_set zenoh_apis ∪ key_set rcl_apis
  /\ common_keys zenoh_apis rcl_apis ## zenoh_only_keys zenoh_apis rcl_apis
  /\ common_keys zenoh_apis rcl_apis ## rcl_only_keys zenoh_apis rcl_apis
  /\ zenoh_only_keys zenoh_apis rcl_apis ## rcl_only_keys zenoh_apis rcl_apis.
Proof.
  unfold common_keys, zenoh_only_keys, rcl_only_keys.
  generalize (key_set zenoh_apis) (key_set rcl_apis). intros Z R.
  split.
  - apply set_eq. intros x.
    rewrite !elem_of_union, elem_of_intersection, !elem_of_difference.
    destruct (decide (x ∈ Z)), (decide (x ∈ R)); tauto.
  - repeat split; apply elem_of_disjoint; intros x;
      rewrite ?elem_of_intersection, ?elem_of_difference; tauto.
Qed.

(** C2: [categorize_by_module] does not reach its ["root"] case. The
    registry of the listing [pub mod oxidros_zenoh] holds one record, of
    a path of one segment; [categorize_by_module] returns no group for
    it, while the grouping of [generate_markdown] files it under
    ["root"]. *)
Theorem categorize_by_module_drops_single_segment :
  extract_apis "pub mod oxidros_zenoh" "oxidros_zenoh"
    = [ ("oxidros",
         mkApiItem "mod" "oxidros_zenoh" "pub mod oxidros_zenoh"
           "oxidros_zenoh" EmptyString) ]
  /\ categorize_by_module (extract_apis "pub mod oxidros_zenoh" "oxidros_zenoh") = []
  /\ group_keys (extract_apis "pub mod oxidros_zenoh" "oxidros_zenoh") ["oxidros"] []
     = Some [ ("root",
               [ mkApiItem "mod" "oxidros_zenoh" "pub mod oxidros_zenoh"
                   "oxidros_zenoh" EmptyString ]) ].
Proof. repeat split; reflexivity. Qed.

(** What [categorize_by_module] does in general with a path of fewer than
    two segments: the record is left out. *)
Lemma categorize_step_single_segment (by_module : PyDict.t (list ApiItem))
    (item : ApiItem) :
  length (PyStr.split "::" (path item)) < 2 ->
  categorize_step by_module item = by_module.
Proof.
  intros H. unfold categorize_step.
  destruct (Nat.leb_spec 2 (length (PyStr.split "::" (path item)))); [lia | reflexivity].
Qed.

(** X12: what [categorize_by_module] keeps in general: under each module,
    the records of two segments or more whose second segment is the
    module, in the order of the registry, and no other record. *)
Lemma categorize_by_module_lists (apis : PyDict.t ApiItem) (m : string) :
  PyDict.get_list m (categorize_by_module apis)
  = filter (fun item => 2 <= length (PyStr.split "::" (path item))
                        /\ nth 1 (PyStr.split "::" (path item)) EmptyString = m)
           (PyDict.values apis).
Proof.
  unfold categorize_by_module.
  change (filter _ (PyDict.values apis))
    with (PyDict.get_list m ([] : PyDict.t (list ApiItem)) ++
          filter (fun item => 2 <= length (PyStr.split "::" (path item))
                              /\ nth 1 (PyStr.split "::" (path item)) EmptyString = m)
                 (PyDict.values apis)).
  generalize ([] : PyDict.t (list ApiItem)).
  induction (PyDict.values apis) as [|item items IH]; intros d; cbn [fold_left].
  - now rewrite app_nil_r.
  - rewrite IH, filter_cons. unfold categorize_step.
    destruct (Nat.leb_spec 2 (length (PyStr.split "::" (path item)))) as [Hlen|Hlen].
    + assert ((1 <? length (PyStr.split "::" (path item)))%nat = true) as ->
        by (apply Nat.ltb_lt; lia).
      rewrite get_list_append_to.
      destruct (decide (m = nth 1 (PyStr.split "::" (path item)) EmptyString))
        as [->|Hne].
      * rewrite decide_True by (split; [exact Hlen | reflexivity]).
        now rewrite <- app_assoc.
      * rewrite decide_False by (intros [_ E]; congruence). reflexivity.
    + rewrite decide_False by (intros [H _]; lia). reflexivity.
Qed.

(** C3, as stated, fails: a path of the crate [oxidros_zenoh] whose
    normalized form holds the crate name again is changed by a second
    normalization. *)
Lemma normalize_path_not_idempotent :
  String.eqb
    (normalize_path "oxidros_zenoh"
       (normalize_path "oxidros_zenoh" "oxidros_zenoh_zenoh::Session"))
    (normalize_path "oxidros_zenoh" "oxidros_zenoh_zenoh::Session")
  = false
  /\ normalize_path "oxidros_zenoh" "oxidros_zenoh_zenoh::Session"
    = "oxidros_zenoh::Session"
  /\ normalize_path "oxidros_zenoh"
       (normalize_path "oxidros_zenoh" "oxidros_zenoh_zenoh::Session")
    = "oxidros::Session"
  /\ parse_api_line "pub struct oxidros_zenoh_zenoh::Session" "oxidros_zenoh"
    = Some (mkApiItem "struct" "oxidros_zenoh_zenoh::Session"
              "pub struct oxidros_zenoh_zenoh::Session" "Session"
              "oxidros_zenoh_zenoh").
Proof. repeat split; reflexivity. Qed.

(** C3 (amended): for a crate name longer than the placeholder [oxidros],
    normalizing a normalized path returns it unchanged exactly when the
    normalized path holds no occurrence of the crate name. *)
Theorem normalize_path_idempotent_iff (crate_name p : string) :
  String.length "oxidros" < String.length crate_name ->
  (normalize_path crate_name (normalize_path crate_name p)
     = normalize_path crate_name p
   <-> PyStr.contains crate_name (normalize_path crate_name p) = false).
Proof.
  intros Hlen. unfold normalize_path, PyStr.replace.
  destruct crate_name as [|a c]; [simpl in Hlen; lia|].
  set (old := String a c) in *.
  set (q := PyStr.replace_from old "oxidros" 0 p).
  split.
  - intros Heq. destruct (PyStr.contains old q) eqn:Hc; [|reflexivity].
    apply (replace_from_shrinks old "oxidros" q Hlen) in Hc.
    rewrite Heq in Hc. lia.
  - apply replace_from_absent.
Qed.

(** The theorem at a concrete line. *)
Lemma normalize_path_idempotent_iff_witness :
  String.length "oxidros" < String.length "oxidros_zenoh"
  /\ (normalize_path "oxidros_zenoh"
        (normalize_path "oxidros_zenoh" "oxidros_zenoh::Context::new")
      = normalize_path "oxidros_zenoh" "oxidros_zenoh::Context::new"
      <-> PyStr.contains "oxidros_zenoh"
            (normalize_path "oxidros_zenoh" "oxidros_zenoh::Context::new") = false).
Proof.
  split; [simpl; lia|].
  apply (normalize_path_idempotent_iff "oxidros_zenoh" "oxidros_zenoh::Context::new").
  simpl; lia.
Defined.

(** C4, as stated, fails for the placeholder name [Guard]: the code skips
    a type alias only when its path holds [::Guard<] or [::GuardMut<], so
    a type alias whose last segment is exactly [Guard] stays in the
    registry. *)
Lemma guard_alias_without_generics_kept :
  first_match patterns "pub type oxidros_zenoh::Lock::Guard = MutexGuard"
    = Some ("type", "oxidros_zenoh::Lock::Guard")
  /\ List.last (PyStr.split "::" "oxidros_zenoh::Lock::Guard") EmptyString = "Guard"
  /\ extract_apis "pub type oxidros_zenoh::Lock::Guard = MutexGuard" "oxidros_zenoh"
     = [ ("oxidros::Lock::Guard",
          mkApiItem "type" "oxidros_zenoh::Lock::Guard"
            "pub type oxidros_zenoh::Lock::Guard = MutexGuard"
            "Guard" "oxidros_zenoh::Lock") ].
Proof. repeat split; reflexivity. Qed.

(** C4 (amended): a line that matches a pattern, with kind [kind] and
    path [path], contributes no entry to the registry when the path holds
    a dependency fragment, or the line holds an auto-derived method
    fragment, or the kind is [type] and the path holds one of [::Error],
    [::Output], [::Guard<], [::GuardMut<], [::Init], [::Owned],
    [::Request] (so a path of two segments or more whose last segment is
    Error, Output, Init, Owned or Request), or the kind is [const] and the
    path holds [::ALIGN] (so a path of two segments or more whose last
    segment is ALIGN). *)
Theorem noise_line_contributes_nothing (crate_name raw kind path : string) :
  first_match patterns (PyStr.strip raw) = Some (kind, path) ->
  PyStr.any_in dependency_fragments path = true
  \/ PyStr.any_in auto_derived_methods (PyStr.strip raw) = true
  \/ (kind = "type" /\ PyStr.any_in trait_type_fragments path = true)
  \/ (kind = "type" /\ 2 <= length (PyStr.split "::" path)
      /\ In (List.last (PyStr.split "::" path) path)
            ["Error"; "Output"; "Init"; "Owned"; "Request"])
  \/ (kind = "const" /\ PyStr.contains "::ALIGN" path = true)
  \/ (kind = "const" /\ 2 <= length (PyStr.split "::" path)
      /\ List.last (PyStr.split "::" path) path = "ALIGN") ->
  parse_api_line (PyStr.strip raw) crate_name = None
  /\ line_entry crate_name raw = None
  /\ forall apis, extract_step crate_name apis raw = apis.
Proof.
  intros Hm Hnoise.
  assert (is_noise kind path (PyStr.strip raw) = true) as Hn.
  { unfold is_noise.
    destruct Hnoise as [H|[H|[[-> H]|[[-> [Hlen Hin]]|[[-> H]|[-> [Hlen Hl]]]]]]].
    - now rewrite H.
    - rewrite H. apply orb_true_iff. left. apply orb_true_iff. left. apply orb_true_r.
    - rewrite H. simpl. apply orb_true_iff. left. apply orb_true_r.
    - pose proof (last_segment_in_path path path Hlen) as Hc.
      assert (PyStr.any_in trait_type_fragments path = true) as ->.
      { simpl in Hin.
        destruct Hin as [E|[E|[E|[E|[E|[]]]]]]; rewrite <- E in Hc;
          (eapply any_in_intro; [|exact Hc]); simpl; tauto. }
      simpl. apply orb_true_iff. left. apply orb_true_r.
    - rewrite H. simpl. apply orb_true_r.
    - pose proof (last_segment_in_path path path Hlen) as Hc.
      rewrite Hl in Hc. change ("::" +:+ "ALIGN") with "::ALIGN" in Hc.
      rewrite Hc. simpl. apply orb_true_r. }
  assert (parse_api_line (PyStr.strip raw) crate_name = None) as Hp.
  { unfold parse_api_line. rewrite Hm, on_match_noise, Hn.
    now destruct (negb _). }
  assert (line_entry crate_name raw = None) as He.
  { unfold line_entry. rewrite Hp. now destruct (negb _). }
  repeat split; [exact Hp | exact He |].
  intros apis. unfold extract_step. now rewrite He.
Qed.

(** The theorem at a concrete line. *)
Lemma noise_line_contributes_nothing_witness :
  parse_api_line (PyStr.strip "pub const oxidros_zenoh::Pointable::ALIGN: usize = 8")
    "oxidros_zenoh" = None
  /\ line_entry "oxidros_zenoh" "pub const oxidros_zenoh::Pointable::ALIGN: usize = 8" = None
  /\ forall apis,
       extract_step "oxidros_zenoh" apis
         "pub const oxidros_zenoh::Pointable::ALIGN: usize = 8" = apis.
Proof.
  apply (noise_line_contributes_nothing "oxidros_zenoh"
           "pub const oxidros_zenoh::Pointable::ALIGN: usize = 8"
           "const" "oxidros_zenoh::Pointable::ALIGN:").
  - reflexivity.
  - right; right; right; right; left. split; reflexivity.
Defined.

(** C5, as stated, fails: [extract_apis] strips each raw line before it
    looks for [pub ], so an indented declaration gives a record although
    the raw line does not begin with [pub ]. *)
Lemma indented_line_gives_record :
  PyStr.startswith "pub " " pub struct oxidros_zenoh::X" = false
  /\ extract_apis " pub struct oxidros_zenoh::X" "oxidros_zenoh"
     = [ ("oxidros::X",
          mkApiItem "struct" "oxidros_zenoh::X" "pub struct oxidros_zenoh::X"
            "X" "oxidros_zenoh") ].
Proof. split; reflexivity. Qed.

(** C5 (amended): a raw line whose text, once surrounding white space is
    stripped, does not begin with [pub ] produces no record: the parser
    rejects the stripped line, the line has no registry entry, and the
    registry is left as it was. *)
Theorem stripped_line_without_pub_rejected (crate_name raw : string) :
  PyStr.startswith "pub " (PyStr.strip raw) = false ->
  parse_api_line (PyStr.strip raw) crate_name = None
  /\ line_entry crate_name raw = None
  /\ forall apis, extract_step crate_name apis raw = apis.
Proof.
  intros H. split; [now apply parse_api_line_requires_pub|].
  assert (line_entry crate_name raw = None) as E.
  { unfold line_entry. now rewrite H. }
  split; [exact E|]. intros apis. unfold extract_step. now rewrite E.
Qed.

(** The theorem at a concrete line. *)
Lemma stripped_line_without_pub_rejected_witness :
  PyStr.startswith "pub " (PyStr.strip "  impl oxidros_zenoh::Context  ") = false
  /\ parse_api_line (PyStr.strip "  impl oxidros_zenoh::Context  ") "oxidros_zenoh" = None
  /\ line_entry "oxidros_zenoh" "  impl oxidros_zenoh::Context  " = None
  /\ forall apis, extract_step "oxidros_zenoh" apis "  impl oxidros_zenoh::Context  " = apis.
Proof.
  split; [reflexivity|].
  apply (stripped_line_without_pub_rejected "oxidros_zenoh" "  impl oxidros_zenoh::Context  ").
  reflexivity.
Defined.

(** C6, as stated, fails for a path of a single segment: the function
    pattern asks for [::] inside the path, so such a line matches no
    pattern although neither skip list applies to it. *)
Lemma single_segment_function_rejected :
  PyStr.startswith "oxidros_zenoh" "oxidros_zenoh_init" = true
  /\ no_space "oxidros_zenoh_init" = true
  /\ PyStr.split "::" "oxidros_zenoh_init" = ["oxidros_zenoh_init"]
  /\ is_noise "fn" "oxidros_zenoh_init" "pub fn oxidros_zenoh_init() -> Context" = false
  /\ first_match patterns "pub fn oxidros_zenoh_init() -> Context" = None
  /\ parse_api_line "pub fn oxidros_zenoh_init() -> Context" "oxidros_zenoh" = None.
Proof. repeat split; reflexivity. Qed.

(** C6 (amended): for every line [pub fn <path>(<args>] whose <path> is
    free of white space, begins with the crate name and holds [::] with
    text on both sides (two segments or more), the function pattern
    matches with a group that starts with <path>, and unless the noise
    filter catches the line the parser returns a record of kind [fn] with
    that group as its path and the line as its signature. *)
Theorem scoped_function_line_parsed (crate_name a b args : string) :
  a <> EmptyString -> b <> EmptyString ->
  no_space a = true -> no_space b = true ->
  PyStr.startswith crate_name (a +:+ "::" +:+ b) = true ->
  exists matched,
    first_match patterns ("pub fn " +:+ (a +:+ "::" +:+ b) +:+ "(" +:+ args)
      = Some ("fn", matched)
    /\ PyStr.startswith (a +:+ "::" +:+ b) matched = true
    /\ (is_noise "fn" matched ("pub fn " +:+ (a +:+ "::" +:+ b) +:+ "(" +:+ args) = false ->
        parse_api_line ("pub fn " +:+ (a +:+ "::" +:+ b) +:+ "(" +:+ args) crate_name
        = Some (make_item "fn" matched
                  ("pub fn " +:+ (a +:+ "::" +:+ b) +:+ "(" +:+ args))).
Proof.
  intros Ha Hb Hsa Hsb Hcrate.
  set (p := a +:+ "::" +:+ b). set (line := "pub fn " +:+ p +:+ "(" +:+ args).
  assert (no_space p = true) as Hsp.
  { apply no_space_append; [exact Hsa|]. now apply (no_space_append "::"). }
  destruct (scoped_path_reaches a b (Re.span_nonspace args) Ha Hb) as [x Hx].
  assert (Re.match_fn line = Some (p +:+ x)) as Hfn.
  { unfold Re.match_fn, line. rewrite after_prefix_append.
    rewrite (span_nonspace_append p) by exact Hsp.
    change (Re.span_nonspace ("(" +:+ args))
      with (String "(" (Re.span_nonspace args)).
    exact Hx. }
  exists (p +:+ x). split; [now apply first_match_fn|].
  split; [apply prefix_append|].
  intros Hn. unfold parse_api_line. rewrite (first_match_fn _ _ Hfn).
  rewrite on_match_noise. fold line. rewrite Hn.
  assert (PyStr.startswith crate_name (p +:+ x) = true) as ->
    by (apply prefix_append_l; exact Hcrate).
  reflexivity.
Qed.

(** The theorem at a concrete line. *)
Lemma scoped_function_line_parsed_witness :
  exists matched,
    first_match patterns "pub fn oxidros_zenoh::Context::new() -> Self"
      = Some ("fn", matched)
    /\ PyStr.startswith "oxidros_zenoh::Context::new" matched = true
    /\ (is_noise "fn" matched "pub fn oxidros_zenoh::Context::new() -> Self" = false ->
        parse_api_line "pub fn oxidros_zenoh::Context::new() -> Self" "oxidros_zenoh"
        = Some (make_item "fn" matched "pub fn oxidros_zenoh::Context::new() -> Self")).
Proof.
  apply (scoped_function_line_parsed "oxidros_zenoh" "oxidros_zenoh::Context" "new"
           ") -> Self"); solve [discriminate | reflexivity].
Defined.

(** C7: the lines are taken in input order (a listing with one more line
    at its end is the registry of the listing before it with that line's
    step applied); and when two lines of the listing have an entry at the
    same key, and no line after them has, the registry holds the later
    line's record at that key, while every other key holds what it would
    hold without the earlier line, and without the later one. *)
Theorem later_record_overwrites (crate_name output : string)
    (before between after : list string) (l1 l2 key : string)
    (item1 item2 : ApiItem) :
  PyStr.splitlines output = before ++ l1 :: between ++ l2 :: after ->
  line_entry crate_name l1 = Some (key, item1) ->
  line_entry crate_name l2 = Some (key, item2) ->
  (forall l item, In l after -> line_entry crate_name l <> Some (key, item)) ->
  (forall ls l,
     extract_lines crate_name (ls ++ [l])
     = extract_step crate_name (extract_lines crate_name ls) l)
  /\ PyDict.get key (extract_apis output crate_name) = Some item2
  /\ forall key', key' <> key ->
       PyDict.get key' (extract_apis output crate_name)
       = PyDict.get key' (extract_lines crate_name (before ++ between ++ l2 :: after))
       /\ PyDict.get key' (extract_apis output crate_name)
          = PyDict.get key' (extract_lines crate_name (before ++ l1 :: between ++ after)).
Proof.
  intros Hlines H1 H2 Hafter. unfold extract_apis. rewrite Hlines.
  split; [intros ls l; now rewrite extract_lines_app|].
  split.
  - replace (before ++ l1 :: between ++ l2 :: after)
      with ((before ++ l1 :: between) ++ l2 :: after)
      by (rewrite <- app_assoc; reflexivity).
    rewrite extract_lines_app. cbn [fold_left].
    rewrite fold_extract_other_lines by exact Hafter.
    unfold extract_step at 1. rewrite H2. apply get_set_eq.
  - intros key' Hne. split.
    + now apply (extract_lines_without crate_name key key' item1).
    + replace (before ++ l1 :: between ++ l2 :: after)
        with ((before ++ l1 :: between) ++ l2 :: after)
        by (rewrite <- app_assoc; reflexivity).
      replace (before ++ l1 :: between ++ after)
        with ((before ++ l1 :: between) ++ after)
        by (rewrite <- app_assoc; reflexivity).
      now apply (extract_lines_without crate_name key key' item2).
Qed.

(** The theorem at a concrete line. *)
Lemma later_record_overwrites_witness :
  PyDict.get "oxidros::Node::spin"
    (extract_apis
       ("pub struct oxidros_zenoh::Node" +:+ String "010"
        ("pub fn oxidros_zenoh::Node::spin(&self)" +:+ String "010"
         ("pub fn oxidros_zenoh::Node::spin(&mut self)" +:+ String "010"
          "pub struct oxidros_zenoh::Context")))
       "oxidros_zenoh")
  = Some (make_item "fn" "oxidros_zenoh::Node::spin"
            "pub fn oxidros_zenoh::Node::spin(&mut self)").
Proof.
  refine (proj1 (proj2 (later_record_overwrites "oxidros_zenoh" _
           ["pub struct oxidros_zenoh::Node"] []
           ["pub struct oxidros_zenoh::Context"]
           "pub fn oxidros_zenoh::Node::spin(&self)"
           "pub fn oxidros_zenoh::Node::spin(&mut self)"
           "oxidros::Node::spin"
           (make_item "fn" "oxidros_zenoh::Node::spin"
              "pub fn oxidros_zenoh::Node::spin(&self)")
           (make_item "fn" "oxidros_zenoh::Node::spin"
              "pub fn oxidros_zenoh::Node::spin(&mut self)") _ _ _ _))).
  - reflexivity.
  - reflexivity.
  - reflexivity.
  - intros l item [<-|[]]. discriminate.
Defined.

(* ===================================================================== *)
(** ** The sections of the report                                         *)
(* ===================================================================== *)

Section ReportFacts.
Variables zenoh_apis rcl_apis : PyDict.t ApiItem.

Lemma common_keys_sub : common_keys zenoh_apis rcl_apis ⊆ key_set zenoh_apis.
Proof. intros x. unfold common_keys. rewrite elem_of_intersection. tauto. Qed.

Lemma zenoh_only_keys_sub : zenoh_only_keys zenoh_apis rcl_apis ⊆ key_set zenoh_apis.
Proof. intros x. unfold zenoh_only_keys. rewrite elem_of_difference. tauto. Qed.

Lemma rcl_only_keys_sub : rcl_only_keys zenoh_apis rcl_apis ⊆ key_set rcl_apis.
Proof. intros x. unfold rcl_only_keys. rewrite elem_of_difference. tauto. Qed.

(** No section raises [KeyError]: each one groups keys of the registry
    it reads. *)
Lemma common_section_grouped :
  exists by_module,
    group_keys zenoh_apis
      (sorted (elements (common_keys zenoh_apis rcl_apis))) [] = Some by_module
    /\ common_section zenoh_apis rcl_apis
       = Some (render_modules "oxidros_zenoh::" by_module).
Proof.
  destruct (group_set_total _ _ common_keys_sub) as [d Hd].
  exists d. split; [exact Hd|]. unfold common_section. now rewrite Hd.
Qed.

Lemma zenoh_section_grouped :
  exists by_module,
    group_keys zenoh_apis
      (sorted (elements (zenoh_only_keys zenoh_apis rcl_apis))) [] = Some by_module
    /\ zenoh_section zenoh_apis rcl_apis
       = Some (render_modules "oxidros_zenoh::" by_module).
Proof.
  destruct (group_set_total _ _ zenoh_only_keys_sub) as [d Hd].
  exists d. split; [exact Hd|]. unfold zenoh_section. now rewrite Hd.
Qed.

Lemma rcl_section_grouped :
  exists by_module,
    group_keys rcl_apis
      (sorted (elements (rcl_only_keys zenoh_apis rcl_apis))) [] = Some by_module
    /\ rcl_section zenoh_apis rcl_apis
       = Some (render_modules "oxidros_rcl::" by_module).
Proof.
  destruct (group_set_total _ _ rcl_only_keys_sub) as [d Hd].
  exists d. split; [exact Hd|]. unfold rcl_section. now rewrite Hd.
Qed.

(** [generate_markdown] always reaches its write. *)
Lemma generate_markdown_lines_sections :
  exists common_lines zenoh_lines rcl_lines,
    common_section zenoh_apis rcl_apis = Some common_lines
    /\ zenoh_section zenoh_apis rcl_apis = Some zenoh_lines
    /\ rcl_section zenoh_apis rcl_apis = Some rcl_lines
    /\ generate_markdown_lines zenoh_apis rcl_apis
       = Some (summary_lines (size (common_keys zenoh_apis rcl_apis))
                 (size (zenoh_only_keys zenoh_apis rcl_apis))
                 (size (rcl_only_keys zenoh_apis rcl_apis))
               ++ common_heading ++ common_lines
               ++ zenoh_heading ++ zenoh_lines
               ++ rcl_heading ++ rcl_lines).
Proof.
  destruct common_section_grouped as [dc [_ Hc]].
  destruct zenoh_section_grouped as [dz [_ Hz]].
  destruct rcl_section_grouped as [dr [_ Hr]].
  eexists _, _, _. repeat split; [exact Hc | exact Hz | exact Hr |].
  unfold generate_markdown_lines. rewrite Hc, Hz, Hr. reflexivity.
Qed.

End ReportFacts.

(** The report text exists for all registries. *)
Lemma generate_markdown_total (zenoh_apis rcl_apis : PyDict.t ApiItem) :
  is_Some (generate_markdown zenoh_apis rcl_apis).
Proof.
  destruct (generate_markdown_lines_sections zenoh_apis rcl_apis)
    as [c [z [r [_ [_ [_ H]]]]]].
  unfold generate_markdown. rewrite H. now eexists.
Qed.

(** Equations of key sets, element by element. *)
Ltac by_membership :=
  apply set_eq; intros ?;
  rewrite ?elem_of_union, ?elem_of_intersection, ?elem_of_difference,
    ?elem_of_empty;
  tauto.

Lemma key_set_nil : key_set [] = ∅.
Proof. reflexivity. Qed.

Lemma group_no_keys (apis : PyDict.t ApiItem) (keys : gset string) :
  keys = ∅ -> group_keys apis (sorted (elements keys)) [] = Some [].
Proof. intros ->. now rewrite elements_empty. Qed.

Lemma run_cargo_public_api_failure (package : string) (result : CompletedProcess) :
  returncode result <> 0%Z ->
  run_cargo_public_api package result
  = ([ "Warning: cargo public-api failed for " +:+ package; stderr result ],
     EmptyString).
Proof.
  intros H. unfold run_cargo_public_api.
  destruct (Z.eqb_spec (returncode result) 0); [contradiction | reflexivity].
Qed.

(** [main] when both runs of the external tool fail: the report with
    three zero counts and three empty sections. *)
Lemma main_lines_both_failed (zenoh_result rcl_result : CompletedProcess) :
  returncode zenoh_result <> 0%Z -> returncode rcl_result <> 0%Z ->
  main_lines zenoh_result rcl_result
  = Some (summary_lines 0 0 0 ++ common_heading ++ zenoh_heading ++ rcl_heading).
Proof.
  intros Hz Hr. unfold main_lines.
  rewrite !run_cargo_public_api_failure by assumption.
  reflexivity.
Qed.

(* ===================================================================== *)
(** ** Order and content of the rendered sections                         *)
(* ===================================================================== *)

Section RenderFacts.


Lemma in_render_module (crate_prefix module line : string) (items : list ApiItem) :
  In line (render_module crate_prefix module items) <->
  (line = "### " +:+ module \/ line = EmptyString
   \/ line = "```rust" \/ line = "```")
  \/ exists item, In item items /\ line = shown_signature crate_prefix item.
Proof.
  unfold render_module.
  rewrite !in_app_iff, in_map_iff. cbn [In]. split.
  - intros [[H|[H|[H|[]]]]|[[item [E Hin]]|[H|[H|[]]]]]; subst; eauto 10.
  - intros [[->|[->|[->| ->]]]|[item [Hin ->]]]; eauto 10.
Qed.

Lemma frame_line_of_module (module line : string) :
  line = "### " +:+ module \/ line = EmptyString
  \/ line = "```rust" \/ line = "```" ->
  is_frame_line line.
Proof. unfold is_frame_line. intros [H|[H|[H|H]]]; eauto. Qed.

Lemma in_render_modules (crate_prefix line : string)
    (by_module : PyDict.t (list ApiItem)) :
  In line (render_modules crate_prefix by_module) <->
  exists module,
    In module (PyDict.keys by_module)
    /\ In line (render_module crate_prefix module
                  (sorted_by name (PyDict.get_list module by_module))).
Proof.
  unfold render_modules. rewrite in_flat_map.
  split; intros [m [Hm Hl]]; exists m; (split; [|exact Hl]);
    now apply sorted_In.
Qed.

(** From a grouping to the lines: the signature lines are those of the
    records of the keys. *)
Lemma in_rendered_grouping (crate_prefix line : string)
    (apis : PyDict.t ApiItem) (keys : list string)
    (by_module : PyDict.t (list ApiItem)) :
  group_keys apis keys [] = Some by_module ->
  (In line (render_modules crate_prefix by_module) ->
   is_frame_line line
   \/ exists key item, In key keys /\ PyDict.get key apis = Some item
                       /\ line = shown_signature crate_prefix item)
  /\ (forall key item, In key keys -> PyDict.get key apis = Some item ->
      In (shown_signature crate_prefix item)
         (render_modules crate_prefix by_module)).
Proof.
  intros Hg. split.
  - intros Hin. apply in_render_modules in Hin as [m [_ Hl]].
    apply in_render_module in Hl as [Hf|[item [Hit ->]]];
      [left; exact (frame_line_of_module _ _ Hf)|].
    right. apply sorted_by_In in Hit.
    rewrite (group_keys_lists _ _ _ _ Hg m) in Hit. cbn [PyDict.get_list PyDict.get app] in Hit.
    apply list_elem_of_In, list_elem_of_omap in Hit as [key [Hk Hget]].
    apply list_elem_of_filter in Hk as [_ Hk]. apply list_elem_of_In in Hk.
    now exists key, item.
  - intros key item Hk Hget. apply in_render_modules.
    exists (module_of_key key). split.
    + apply (group_keys_keys _ _ _ _ Hg). right. now exists key.
    + apply in_render_module. right. exists item. split; [|reflexivity].
      apply sorted_by_In. rewrite (group_keys_lists _ _ _ _ Hg).
      apply list_elem_of_In, list_elem_of_omap. exists key. split; [|exact Hget].
      apply list_elem_of_filter. split; [reflexivity | now apply list_elem_of_In].
Qed.

End RenderFacts.

(** Every record of the keys grouped for a section has its signature,
    without the prefix of the section, among the lines of the section. *)
Lemma grouped_keys_shown (crate_prefix : string) (apis : PyDict.t ApiItem)
    (keys : gset string) (by_module : PyDict.t (list ApiItem)) :
  group_keys apis (sorted (elements keys)) [] = Some by_module ->
  forall key item,
    key ∈ keys ->
    PyDict.get key apis = Some item ->
    In (PyStr.replace crate_prefix EmptyString (signature item))
       (render_modules crate_prefix by_module).
Proof.
  intros Hg key item Hk Hget.
  destruct (in_rendered_grouping crate_prefix EmptyString _ _ _ Hg) as [_ Hall].
  apply (Hall key item); [|exact Hget].
  now apply sorted_In, list_elem_of_In, elem_of_elements.
Qed.


(** C10: the Common section is made from the zenoh registry alone. The
    report is the summary, the Common heading, the lines of the Common
    section, then the Zenoh-Only heading and the rest. Each key of the
    common partition shows, among the lines of the Common section, the
    signature of the zenoh record at that key without the prefix
    [oxidros_zenoh::]; every line of the section is empty, a fence, a
    module heading, or such a signature of a zenoh record at a common
    key; and the section reads the rcl registry through its key set only,
    so it is the same for any rcl registry with the same keys, whatever
    its records. *)
Theorem common_section_shows_zenoh_records (zenoh_apis rcl_apis : PyDict.t ApiItem) :
  exists lines rest,
    generate_markdown_lines zenoh_apis rcl_apis
    = Some ([ "# Oxidros API Reference";
              EmptyString;
              "This document is auto-generated by `scripts/generate_api_docs.py`.";
              EmptyString;
              "## Summary";
              EmptyString;
              "| Category | Count |";
              "|----------|-------|";
              "| Common APIs | "
                +:+ PyStr.str_of_nat (size (common_keys zenoh_apis rcl_apis)) +:+ " |";
              "| Zenoh-only APIs | "
                +:+ PyStr.str_of_nat (size (zenoh_only_keys zenoh_apis rcl_apis)) +:+ " |";
              "| RCL-only APIs | "
                +:+ PyStr.str_of_nat (size (rcl_only_keys zenoh_apis rcl_apis)) +:+ " |";
              EmptyString;
              "---";
              EmptyString;
              "## Common APIs (Both Backends)";
              EmptyString;
              "These APIs are available in both `oxidros-rcl` and `oxidros-zenoh` with the same signature.";
              EmptyString ]
            ++ lines
            ++ [ "---"; EmptyString; "## Zenoh-Only APIs"; EmptyString;
                 "These APIs are specific to `oxidros-zenoh`."; EmptyString ]
            ++ rest)
    /\ common_section zenoh_apis rcl_apis = Some lines
    /\ (forall key item,
          key ∈ common_keys zenoh_apis rcl_apis ->
          PyDict.get key zenoh_apis = Some item ->
          In (PyStr.replace "oxidros_zenoh::" EmptyString (signature item)) lines)
    /\ (forall line, In line lines ->
          (line = EmptyString \/ line = "```rust" \/ line = "```"
           \/ exists module, line = "### " +:+ module)
          \/ exists key item,
               key ∈ common_keys zenoh_apis rcl_apis
               /\ PyDict.get key zenoh_apis = Some item
               /\ line = PyStr.replace "oxidros_zenoh::" EmptyString (signature item))
    /\ (forall rcl_apis' : PyDict.t ApiItem,
          key_set rcl_apis' = key_set rcl_apis ->
          common_section zenoh_apis rcl_apis' = Some lines).
Proof.
  destruct (common_section_grouped zenoh_apis rcl_apis) as [d [Hg Hc]].
  destruct (zenoh_section_grouped zenoh_apis rcl_apis) as [dz [_ Hz]].
  destruct (rcl_section_grouped zenoh_apis rcl_apis) as [dr [_ Hr]].
  exists (render_modules "oxidros_zenoh::" d),
    (render_modules "oxidros_zenoh::" dz
     ++ [ "---"; EmptyString; "## RCL-Only APIs"; EmptyString;
          "These APIs are specific to `oxidros-rcl`."; EmptyString ]
     ++ render_modules "oxidros_rcl::" dr).
  split.
  { unfold generate_markdown_lines. rewrite Hc, Hz, Hr. reflexivity. }
  split; [exact Hc|].
  split; [|split].
  - exact (grouped_keys_shown "oxidros_zenoh::" _ _ _ Hg).
  - intros line Hin.
    destruct (in_rendered_grouping "oxidros_zenoh::" line _ _ _ Hg) as [Hfrom _].
    destruct (Hfrom Hin) as [Hf|[key [item [Hk [Hget ->]]]]]; [left; exact Hf|].
    right. exists key, item. split; [|split; [exact Hget|reflexivity]].
    now apply sorted_In, list_elem_of_In, elem_of_elements in Hk.
  - intros rcl_apis' Hkeys. rewrite <- Hc.
    unfold common_section, common_keys. now rewrite Hkeys.
Qed.

(* ===================================================================== *)
(** ** The report of an empty listing                                     *)
(* ===================================================================== *)

(** Every record of a registry is shown in the section that groups all
    of its keys. *)
Lemma all_keys_shown (crate_prefix : string) (apis : PyDict.t ApiItem)
    (by_module : PyDict.t (list ApiItem)) :
  group_keys apis (sorted (elements (key_set apis))) [] = Some by_module ->
  forall key item,
    PyDict.get key apis = Some item ->
    In (PyStr.replace crate_prefix EmptyString (signature item))
       (render_modules crate_prefix by_module).
Proof.
  intros Hg key item Hget.
  apply (grouped_keys_shown _ _ _ _ Hg key item); [|exact Hget].
  apply key_set_spec. rewrite Hget. now eexists.
Qed.

(** C8: a failed run of the external tool prints a warning that names
    the package, then the tool's error text, and gives the empty text for
    the listing; the registry of the empty listing is empty. With two
    empty registries the report is the whole frame: title, notice,
    summary table with three counts of 0, and the three headings with no
    subsection. With an empty registry on one side the report is the same
    frame, the counts of the empty side and of the common part being 0
    and the third the number of keys of the other registry (its length,
    for a registry without repeated keys); under the other component's
    heading stand its subsections, one per module in sorted order: the
    module's heading, an opening fence, the signatures of its records in
    the order of their names, each without the component's prefix, a
    closing fence; the signature of each record of the registry is among
    them. *)
Theorem empty_listing_gives_degenerate_report (crate_name package : string)
    (result : CompletedProcess) (apis : PyDict.t ApiItem) :
  (returncode result <> 0%Z ->
   run_cargo_public_api package result
   = ([ "Warning: cargo public-api failed for " +:+ package; stderr result ],
      EmptyString))
  /\ extract_apis EmptyString crate_name = []
  /\ generate_markdown_lines [] []
     = Some [ "# Oxidros API Reference";
              EmptyString;
              "This document is auto-generated by `scripts/generate_api_docs.py`.";
              EmptyString;
              "## Summary";
              EmptyString;
              "| Category | Count |";
              "|----------|-------|";
              "| Common APIs | 0 |";
              "| Zenoh-only APIs | 0 |";
              "| RCL-only APIs | 0 |";
              EmptyString;
              "---";
              EmptyString;
              "## Common APIs (Both Backends)";
              EmptyString;
              "These APIs are available in both `oxidros-rcl` and `oxidros-zenoh` with the same signature.";
              EmptyString;
              "---"; EmptyString; "## Zenoh-Only APIs"; EmptyString;
              "These APIs are specific to `oxidros-zenoh`."; EmptyString;
              "---"; EmptyString; "## RCL-Only APIs"; EmptyString;
              "These APIs are specific to `oxidros-rcl`."; EmptyString ]
  /\ (NoDup (PyDict.keys apis) -> size (key_set apis) = length apis)
  /\ (exists by_module,
        let subsections (crate_prefix : string) : list string :=
          flat_map
            (fun module =>
               [ "### " +:+ module; EmptyString; "```rust" ]
               ++ map (fun item =>
                         PyStr.replace crate_prefix EmptyString (signature item))
                      (sorted_by name (PyDict.get_list module by_module))
               ++ [ "```"; EmptyString ])
            (sorted (PyDict.keys by_module)) in
        group_keys apis (sorted (elements (key_set apis))) [] = Some by_module
        /\ generate_markdown_lines [] apis
           = Some ([ "# Oxidros API Reference";
                     EmptyString;
                     "This document is auto-generated by `scripts/generate_api_docs.py`.";
                     EmptyString;
                     "## Summary";
                     EmptyString;
                     "| Category | Count |";
                     "|----------|-------|";
                     "| Common APIs | 0 |";
                     "| Zenoh-only APIs | 0 |";
                     "| RCL-only APIs | " +:+ PyStr.str_of_nat (size (key_set apis)) +:+ " |";
                     EmptyString;
                     "---";
                     EmptyString;
                     "## Common APIs (Both Backends)";
                     EmptyString;
                     "These APIs are available in both `oxidros-rcl` and `oxidros-zenoh` with the same signature.";
                     EmptyString;
                     "---"; EmptyString; "## Zenoh-Only APIs"; EmptyString;
                     "These APIs are specific to `oxidros-zenoh`."; EmptyString;
                     "---"; EmptyString; "## RCL-Only APIs"; EmptyString;
                     "These APIs are specific to `oxidros-rcl`."; EmptyString ]
                   ++ subsections "oxidros_rcl::")
        /\ (forall key item,
              PyDict.get key apis = Some item ->
              In (PyStr.replace "oxidros_rcl::" EmptyString (signature item))
                 (subsections "oxidros_rcl::"))
        /\ generate_markdown_lines apis []
           = Some ([ "# Oxidros API Reference";
                     EmptyString;
                     "This document is auto-generated by `scripts/generate_api_docs.py`.";
                     EmptyString;
                     "## Summary";
                     EmptyString;
                     "| Category | Count |";
                     "|----------|-------|";
                     "| Common APIs | 0 |";
                     "| Zenoh-only APIs | " +:+ PyStr.str_of_nat (size (key_set apis)) +:+ " |";
                     "| RCL-only APIs | 0 |";
                     EmptyString;
                     "---";
                     EmptyString;
                     "## Common APIs (Both Backends)";
                     EmptyString;
                     "These APIs are available in both `oxidros-rcl` and `oxidros-zenoh` with the same signature.";
                     EmptyString;
                     "---"; EmptyString; "## Zenoh-Only APIs"; EmptyString;
                     "These APIs are specific to `oxidros-zenoh`."; EmptyString ]
                   ++ subsections "oxidros_zenoh::"
                   ++ [ "---"; EmptyString; "## RCL-Only APIs"; EmptyString;
                        "These APIs are specific to `oxidros-rcl`."; EmptyString ])
        /\ (forall key item,
              PyDict.get key apis = Some item ->
              In (PyStr.replace "oxidros_zenoh::" EmptyString (signature item))
                 (subsections "oxidros_zenoh::"))).
Proof.
  split; [exact (run_cargo_public_api_failure package result)|].
  split; [reflexivity|].
  split; [reflexivity|].
  split.
  { intros Hnd. unfold key_set. rewrite size_list_to_set by exact Hnd.
    unfold PyDict.keys. apply length_map. }
  assert (key_set apis ⊆ key_set apis) as Hsub by reflexivity.
  destruct (group_set_total apis _ Hsub) as [d Hd].
  exists d. cbv zeta. split; [exact Hd|].
  assert (generate_markdown_lines [] apis
          = Some (summary_lines 0 0 (size (key_set apis))
                  ++ common_heading ++ zenoh_heading
                  ++ rcl_heading ++ render_modules "oxidros_rcl::" d)
          /\ generate_markdown_lines apis []
             = Some (summary_lines 0 (size (key_set apis)) 0
                     ++ common_heading
                     ++ zenoh_heading ++ render_modules "oxidros_zenoh::" d
                     ++ rcl_heading)) as [Hr Hz].
  { unfold generate_markdown_lines, common_section, zenoh_section, rcl_section,
      common_keys, zenoh_only_keys, rcl_only_keys.
    rewrite key_set_nil.
    assert (∅ ∩ key_set apis = (∅ : gset string)) as -> by by_membership.
    assert (key_set apis ∩ ∅ = (∅ : gset string)) as -> by by_membership.
    assert ((∅ : gset string) ∖ key_set apis = ∅) as -> by by_membership.
    assert (key_set apis ∖ ∅ = key_set apis) as -> by by_membership.
    rewrite !(group_no_keys _ ∅ eq_refl), Hd, size_empty.
    cbn [mbind option_bind]. split; [reflexivity|].
    now rewrite app_nil_r. }
  split; [exact Hr|].
  split; [exact (all_keys_shown "oxidros_rcl::" apis d Hd)|].
  split; [exact Hz|].
  exact (all_keys_shown "oxidros_zenoh::" apis d Hd).
Qed.

(* ===================================================================== *)
(** ** [split] and [join]: the segments of a path                         *)
(* ===================================================================== *)

Section SegmentFacts.

Lemma split_from_skip (sep u cur s : string) :
  PyStr.split_from sep (String.length u) cur (u +:+ s)
  = PyStr.split_from sep 0 cur s.
Proof.
  induction u as [|a u IH]; [now destruct s|].
  rewrite append_cons. cbn [String.length PyStr.split_from]. exact IH.
Qed.

(** At a separator the segment read so far is closed and the scan goes
    on after the separator. *)
Lemma split_from_separator (sep cur s : string) :
  sep <> EmptyString ->
  PyStr.split_from sep 0 cur (sep +:+ s)
  = cur :: PyStr.split_from sep 0 EmptyString s.
Proof.
  intros Hne. destruct sep as [|a o]; [contradiction|].
  rewrite append_cons. cbn [PyStr.split_from].
  rewrite <- append_cons, prefix_append.
  replace (String.length (String a o) - 1) with (String.length o)
    by (cbn [String.length]; lia).
  now rewrite split_from_skip.
Qed.

(** Without a separator in it the text is one segment. *)
Lemma split_from_absent (sep s : string) :
  forall cur, PyStr.contains sep s = false ->
              PyStr.split_from sep 0 cur s = [cur +:+ s].
Proof.
  induction s as [|a r IH]; intros cur H.
  - now rewrite append_nil_r.
  - apply contains_cons_false in H as [Hp Hr].
    cbn [PyStr.split_from]. rewrite Hp, (IH _ Hr), append_assoc. reflexivity.
Qed.

Lemma concat_cons_nonempty (sep x : string) (l : list string) :
  l <> [] -> String.concat sep (x :: l) = x +:+ sep +:+ String.concat sep l.
Proof. destruct l; [contradiction | reflexivity]. Qed.

(** Joining the segments with the separator gives the text back. *)
Lemma join_split_from (sep : string) (n : nat) :
  sep <> EmptyString ->
  forall s cur, String.length s <= n ->
    PyStr.join sep (PyStr.split_from sep 0 cur s) = cur +:+ s.
Proof.
  intros Hne. unfold PyStr.join.
  induction n as [|n IH]; intros s cur Hn.
  - destruct s; [|simpl in Hn; lia]. cbn. now rewrite append_nil_r.
  - destruct s as [|a r]; [cbn; now rewrite append_nil_r|].
    destruct (String.prefix sep (String a r)) eqn:Hp.
    + apply prefix_split in Hp as [s' E]. rewrite E.
      rewrite split_from_separator by exact Hne.
      rewrite concat_cons_nonempty by apply split_from_nonempty.
      rewrite IH; [reflexivity|].
      apply (f_equal String.length) in E. rewrite append_length in E.
      destruct sep; [contradiction|]. simpl in E, Hn. lia.
    + cbn [PyStr.split_from]. rewrite Hp, IH by (simpl in Hn; lia).
      now rewrite append_assoc.
Qed.

Lemma join_split (sep s : string) :
  sep <> EmptyString -> PyStr.join sep (PyStr.split sep s) = s.
Proof.
  intros Hne. unfold PyStr.split.
  now rewrite (join_split_from sep (String.length s)).
Qed.

Lemma no_start_contains (sep cur s : string) :
  sep <> EmptyString -> no_start sep cur s -> PyStr.contains sep cur = false.
Proof.
  intros Hne. induction cur as [|a cur IH]; intros Hns.
  - destruct sep; [contradiction | reflexivity].
  - rewrite contains_unfold. apply orb_false_iff. split.
    + destruct (String.prefix sep (String a cur)) eqn:Hp; [|reflexivity].
      rewrite <- (Hns EmptyString (String a cur) eq_refl ltac:(discriminate)).
      symmetry. now apply prefix_append_l.
    + apply IH. intros u v E Hv. apply (Hns (String a u) v); [|exact Hv].
      now rewrite E.
Qed.

Lemma append_snoc_cases (cur u v : string) (c : ascii) :
  cur +:+ String c EmptyString = u +:+ v -> v <> EmptyString ->
  (u = cur /\ v = String c EmptyString)
  \/ exists v', v' <> EmptyString /\ cur = u +:+ v'
                /\ v = v' +:+ String c EmptyString.
Proof.
  revert u. induction cur as [|a cur IH]; intros u E Hv.
  - destruct u as [|b u].
    + left. split; [reflexivity | exact (eq_sym E)].
    + exfalso. change (String c EmptyString = String b (u +:+ v)) in E.
      injection E as _ E. destruct u; [|discriminate].
      apply Hv. exact (eq_sym E).
  - destruct u as [|b u].
    + right. exists (String a cur).
      split; [discriminate|]. split; [reflexivity | exact (eq_sym E)].
    + change (String a (cur +:+ String c EmptyString) = String b (u +:+ v)) in E.
      injection E as -> E.
      destruct (IH u E Hv) as [[-> ->]|[v' [Hv' [-> ->]]]].
      * now left.
      * right. now exists v'.
Qed.

(** No segment holds the separator. *)
Lemma split_from_segments (sep : string) (n : nat) :
  sep <> EmptyString ->
  forall s cur, String.length s <= n -> no_start sep cur s ->
    Forall (fun seg => PyStr.contains sep seg = false)
           (PyStr.split_from sep 0 cur s).
Proof.
  intros Hne. induction n as [|n IH]; intros s cur Hn Hns.
  - destruct s; [|simpl in Hn; lia].
    constructor; [|constructor]. exact (no_start_contains _ _ _ Hne Hns).
  - destruct s as [|a r].
    + constructor; [|constructor]. exact (no_start_contains _ _ _ Hne Hns).
    + destruct (String.prefix sep (String a r)) eqn:Hp.
      * apply prefix_split in Hp as [s' E]. rewrite E.
        rewrite split_from_separator by exact Hne.
        constructor; [exact (no_start_contains _ _ _ Hne Hns)|].
        apply IH.
        -- apply (f_equal String.length) in E. rewrite append_length in E.
           destruct sep; [contradiction|]. simpl in E, Hn. lia.
        -- intros u v Euv Hv. destruct u; [|discriminate].
           exfalso. apply Hv. exact (eq_sym Euv).
      * cbn [PyStr.split_from]. rewrite Hp. apply IH; [simpl in Hn; lia|].
        intros u v Euv Hv.
        destruct (append_snoc_cases _ _ _ _ Euv Hv) as [[-> ->]|[v' [Hv' [-> ->]]]].
        -- exact Hp.
        -- rewrite append_assoc. exact (Hns u v' eq_refl Hv').
Qed.

Lemma split_segments (sep s : string) :
  sep <> EmptyString ->
  Forall (fun seg => PyStr.contains sep seg = false) (PyStr.split sep s).
Proof.
  intros Hne. apply (split_from_segments sep (String.length s) Hne); [lia|].
  intros u v E Hv. destruct u; [|discriminate].
  exfalso. apply Hv. exact (eq_sym E).
Qed.

Lemma last_In {A : Type} (l : list A) (d : A) : l <> [] -> In (List.last l d) l.
Proof.
  induction l as [|x l IH]; [contradiction|]. intros _.
  destruct l as [|y l]; [now left|].
  right. apply IH. discriminate.
Qed.

Lemma concat_removelast_last (sep d : string) (l : list string) :
  2 <= length l ->
  String.concat sep l
  = String.concat sep (removelast l) +:+ sep +:+ List.last l d.
Proof.
  induction l as [|x l IH]; intros Hlen; [simpl in Hlen; lia|].
  destruct l as [|y l]; [simpl in Hlen; lia|].
  destruct l as [|z l].
  - reflexivity.
  - change (String.concat sep (x :: y :: z :: l))
      with (x +:+ sep +:+ String.concat sep (y :: z :: l)).
    rewrite IH by (simpl; lia).
    change (removelast (x :: y :: z :: l)) with (x :: removelast (y :: z :: l)).
    change (List.last (x :: y :: z :: l) d) with (List.last (y :: z :: l) d).
    rewrite concat_cons_nonempty by (destruct l; discriminate).
    now rewrite !append_assoc.
Qed.

End SegmentFacts.

(** X2: [name] and [parent] of an item are its path taken apart at its
    last [::]: the name holds no [::]; a path without [::] is its own
    name, with no parent; any other path is the parent, [::] and the
    name. *)
Theorem name_parent_reassemble_path (kind path line : string) :
  PyStr.contains "::" (name (make_item kind path line)) = false
  /\ (PyStr.contains "::" path = false ->
      name (make_item kind path line) = path
      /\ parent (make_item kind path line) = EmptyString)
  /\ (PyStr.contains "::" path = true ->
      path = parent (make_item kind path line) +:+ "::"
             +:+ name (make_item kind path line)).
Proof.
  assert ("::" <> EmptyString) as Hne by discriminate.
  pose proof (split_segments "::" path Hne) as Hseg.
  pose proof (join_split "::" path Hne) as Hjoin.
  assert (PyStr.split "::" path <> []) as Hnil by apply split_from_nonempty.
  cbn [make_item name parent].
  split; [|split].
  - apply (proj1 (List.Forall_forall _ _) Hseg). now apply last_In.
  - intros Hc. unfold PyStr.split. rewrite (split_from_absent _ _ _ Hc).
    split; reflexivity.
  - intros Hc.
    destruct (Nat.ltb_spec 1 (length (PyStr.split "::" path))) as [Hlen|Hlen].
    + rewrite <- Hjoin at 1. unfold PyStr.join.
      now apply concat_removelast_last.
    + exfalso. destruct (PyStr.split "::" path) as [|x [|y l]] eqn:E;
        [contradiction | | simpl in Hlen; lia].
      cbn in Hjoin. subst x.
      apply Forall_inv in Hseg. congruence.
Qed.

(* ===================================================================== *)
(** ** What a match of a pattern says about the line                      *)
(* ===================================================================== *)

Section MatchShapes.

Lemma span_nonspace_split (s : string) :
  exists rest,
    s = Re.span_nonspace s +:+ rest
    /\ no_space (Re.span_nonspace s) = true
    /\ (rest = EmptyString
        \/ exists c r, rest = String c r /\ PyStr.is_space c = true).
Proof.
  induction s as [|a s [rest [E [Hns Hrest]]]].
  - exists EmptyString. repeat split. now left.
  - cbn [Re.span_nonspace]. destruct (PyStr.is_space a) eqn:Ha.
    + exists (String a s). repeat split. right. now exists a, s.
    + exists rest. rewrite append_cons, <- E. cbn [no_space]. rewrite Ha, Hns.
      repeat split. exact Hrest.
Qed.

Lemma no_space_prefix (a b : string) :
  no_space (a +:+ b) = true -> no_space a = true.
Proof.
  induction a as [|c a IH]; [reflexivity|].
  rewrite append_cons. cbn [no_space]. intros H.
  apply andb_true_iff in H as [Hc H]. rewrite Hc. now apply IH.
Qed.

Lemma upto_last_paren_split (u b : string) :
  Re.upto_last_paren u = Some b -> exists w, u = b +:+ String "(" w.
Proof.
  revert b. induction u as [|c r IH]; intros b; [discriminate|].
  cbn [Re.upto_last_paren].
  destruct (Re.upto_last_paren r) as [b'|].
  - intros [= <-]. destruct (IH b' eq_refl) as [w ->]. now exists w.
  - destruct (Ascii.eqb_spec c "(") as [->|]; [|discriminate].
    intros [= <-]. now exists r.
Qed.

Lemma scoped_then_paren_scoped (t q : string) :
  Re.scoped_then_paren t = Some q -> PyStr.contains "::" q = true.
Proof.
  revert q. induction t as [|c r IH]; intros q; [discriminate|].
  cbn [Re.scoped_then_paren].
  destruct (Re.scoped_then_paren r) as [p|].
  - intros [= <-]. apply contains_cons. now apply IH.
  - destruct (Re.after_prefix "::" (String c r)) as [u|]; [|discriminate].
    destruct (Re.segment_then_paren u) as [x|]; [|discriminate].
    intros [= <-]. apply contains_prefix, prefix_append.
Qed.

(** A match of the function pattern: the line is [pub fn ], the group,
    a parenthesis and a rest; the group is blank-free and holds [::]. *)
Lemma match_fn_shape (line p : string) :
  Re.match_fn line = Some p ->
  p <> EmptyString /\ no_space p = true /\ PyStr.contains "::" p = true
  /\ exists rest, line = "pub fn " +:+ p +:+ "(" +:+ rest.
Proof.
  unfold Re.match_fn.
  destruct (Re.after_prefix "pub fn " line) as [rest0|] eqn:Hpre; [|discriminate].
  apply after_prefix_spec in Hpre.
  destruct (span_nonspace_split rest0) as [rest1 [E [Hns _]]].
  destruct (Re.span_nonspace rest0) as [|c t] eqn:Ht; [discriminate|].
  cbn [Re.scoped_path].
  destruct (Re.scoped_then_paren t) as [q|] eqn:Hq; [|discriminate].
  intros [= <-].
  pose proof (scoped_then_paren_scoped _ _ Hq) as Hsc.
  apply scoped_then_paren_upto, upto_last_paren_split in Hq as [w ->].
  split; [discriminate|]. split; [|split].
  - rewrite <- append_cons in Hns. now apply no_space_prefix in Hns.
  - now apply contains_cons.
  - exists (w +:+ rest1). rewrite Hpre, E.
    rewrite <- append_cons, !append_assoc. reflexivity.
Qed.

(** A match of a keyword pattern: the line is [pub ], the keyword, a
    blank, the group and a rest that is empty or starts with white
    space; the group is blank-free. *)
Lemma match_keyword_shape (kw line p : string) :
  Re.match_keyword kw line = Some p ->
  p <> EmptyString /\ no_space p = true
  /\ exists rest,
       line = "pub " +:+ kw +:+ " " +:+ p +:+ rest
       /\ (rest = EmptyString
           \/ exists c r, rest = String c r /\ PyStr.is_space c = true).
Proof.
  unfold Re.match_keyword.
  destruct (Re.after_prefix _ line) as [rest0|] eqn:Hpre; [|discriminate].
  apply after_prefix_spec in Hpre.
  destruct (span_nonspace_split rest0) as [rest1 [E [Hns Hrest]]].
  destruct (Re.span_nonspace rest0) as [|c t] eqn:Ht; [discriminate|].
  intros [= <-]. split; [discriminate|]. split; [exact Hns|].
  exists rest1. split; [|exact Hrest].
  rewrite Hpre, E, !append_assoc. reflexivity.
Qed.

Lemma first_match_shape (line k p : string) :
  first_match patterns line = Some (k, p) ->
  (k = "fn" /\ Re.match_fn line = Some p)
  \/ (In k keyword_kinds /\ Re.match_keyword k line = Some p).
Proof.
  unfold patterns, keyword_kinds. cbn [first_match In].
  destruct (Re.match_fn line) eqn:Hfn; [intros [= <- <-]; now left|].
  repeat match goal with
  | |- context [Re.match_keyword ?kw line] =>
      let H := fresh "Hkw" in
      destruct (Re.match_keyword kw line) eqn:H;
      [intros [= <- <-]; right; split; [tauto | exact H]|]
  end.
  discriminate.
Qed.

(** A returned item is made from the first match, which passed the
    crate test and the skips. *)
Lemma parse_api_line_inv (line crate_name : string) (item : ApiItem) :
  parse_api_line line crate_name = Some item ->
  exists k p,
    first_match patterns line = Some (k, p)
    /\ PyStr.startswith crate_name p = true
    /\ is_noise k p line = false
    /\ item = make_item k p line.
Proof.
  unfold parse_api_line.
  destruct (first_match patterns line) as [[k p]|] eqn:Hm; [|discriminate].
  rewrite on_match_noise.
  destruct (PyStr.startswith crate_name p) eqn:Hcrate; [|discriminate].
  destruct (is_noise k p line) eqn:Hnoise; [discriminate|].
  cbn [negb]. intros [= <-]. now exists k, p.
Qed.

End MatchShapes.

(** X1: what [parse_api_line] returns is read off the line. The
    signature is the line itself and name and parent come from the path;
    the path is not empty, free of white space and starts with the crate
    name; no skip list applies; and the line is [pub fn <path>(...] with
    [::] inside the path, or [pub <kind> <path>] followed by nothing or
    by white space, for one of the six other kinds. *)
Theorem parse_api_line_sound (line crate_name : string) (item : ApiItem) :
  parse_api_line line crate_name = Some item ->
  item = make_item (kind item) (path item) line
  /\ path item <> EmptyString
  /\ no_space (path item) = true
  /\ PyStr.startswith crate_name (path item) = true
  /\ is_noise (kind item) (path item) line = false
  /\ ((kind item = "fn" /\ PyStr.contains "::" (path item) = true
       /\ exists rest, line = "pub fn " +:+ path item +:+ "(" +:+ rest)
      \/ (In (kind item) keyword_kinds
          /\ exists rest,
               line = "pub " +:+ kind item +:+ " " +:+ path item +:+ rest
               /\ (rest = EmptyString
                   \/ exists c r, rest = String c r /\ PyStr.is_space c = true))).
Proof.
  unfold parse_api_line.
  destruct (first_match patterns line) as [[k p]|] eqn:Hm; [|discriminate].
  rewrite on_match_noise.
  destruct (PyStr.startswith crate_name p) eqn:Hcrate; [|discriminate].
  destruct (is_noise k p line) eqn:Hnoise; [discriminate|].
  cbn [negb]. intros [= <-]. cbn [make_item kind path].
  split; [reflexivity|].
  destruct (first_match_shape _ _ _ Hm) as [[-> Hfn]|[Hin Hkw]].
  - destruct (match_fn_shape _ _ Hfn) as [Hne [Hns [Hsc Hline]]].
    repeat split; try assumption. now left.
  - destruct (match_keyword_shape _ _ _ Hkw) as [Hne [Hns Hline]].
    repeat split; try assumption. now right.
Qed.

(** The theorem at a concrete line. *)
Lemma parse_api_line_sound_witness :
  PyStr.startswith "oxidros_zenoh" "oxidros_zenoh::Context" = true
  /\ is_noise "struct" "oxidros_zenoh::Context" "pub struct oxidros_zenoh::Context" = false.
Proof.
  destruct (parse_api_line_sound "pub struct oxidros_zenoh::Context" "oxidros_zenoh"
              (make_item "struct" "oxidros_zenoh::Context"
                 "pub struct oxidros_zenoh::Context") eq_refl)
    as [_ [_ [_ [H1 [H2 _]]]]].
  split; [exact H1 | exact H2].
Defined.

(* ===================================================================== *)
(** ** Lines of the keyword patterns                                      *)
(* ===================================================================== *)

Section KeywordLines.

Lemma span_nonspace_token (p rest : string) :
  no_space p = true ->
  rest = EmptyString
  \/ (exists c r, rest = String c r /\ PyStr.is_space c = true) ->
  Re.span_nonspace (p +:+ rest) = p.
Proof.
  intros Hp Hrest. rewrite span_nonspace_append by exact Hp.
  destruct Hrest as [->|[c [r [-> Hc]]]].
  - apply append_nil_r.
  - cbn [Re.span_nonspace]. rewrite Hc. apply append_nil_r.
Qed.

Lemma match_keyword_token (kw p rest : string) :
  p <> EmptyString -> no_space p = true ->
  rest = EmptyString
  \/ (exists c r, rest = String c r /\ PyStr.is_space c = true) ->
  Re.match_keyword kw ("pub " +:+ kw +:+ " " +:+ p +:+ rest) = Some p.
Proof.
  intros Hne Hp Hrest. unfold Re.match_keyword.
  replace ("pub " +:+ kw +:+ " " +:+ p +:+ rest)
    with (("pub " +:+ kw +:+ " ") +:+ p +:+ rest)
    by now rewrite !append_assoc.
  rewrite after_prefix_append, span_nonspace_token by assumption.
  destruct p; [contradiction | reflexivity].
Qed.

(** The patterns before a keyword's own do not match its lines: the
    texts differ by the keyword's first characters. *)
Lemma first_match_keyword (kw p rest : string) :
  In kw keyword_kinds ->
  Re.match_keyword kw ("pub " +:+ kw +:+ " " +:+ p +:+ rest) = Some p ->
  first_match patterns ("pub " +:+ kw +:+ " " +:+ p +:+ rest) = Some (kw, p).
Proof.
  unfold keyword_kinds, patterns. cbn [In first_match].
  intros [<-|[<-|[<-|[<-|[<-|[<-|[]]]]]]] Hm;
    rewrite ?Hm; try reflexivity;
    repeat (match goal with
            | |- context [Re.match_fn ?l] =>
                change (Re.match_fn l) with (@None string)
            | |- context [Re.match_keyword ?k ?l] =>
                change (Re.match_keyword k l) with (@None string)
            end; cbv iota; rewrite ?Hm);
    reflexivity.
Qed.

End KeywordLines.

(** X3: the six keyword patterns accept their lines. For a kind among
    struct, enum, type, const, mod and trait, the line [pub <kind> <path>]
    followed by nothing or by white space, with a path that is not empty,
    free of white space and that starts with the crate name, gives the
    item of that kind and path, unless a skip list applies. *)
Theorem keyword_line_parsed (crate_name kw p rest : string) :
  In kw keyword_kinds ->
  p <> EmptyString -> no_space p = true ->
  rest = EmptyString
  \/ (exists c r, rest = String c r /\ PyStr.is_space c = true) ->
  PyStr.startswith crate_name p = true ->
  is_noise kw p ("pub " +:+ kw +:+ " " +:+ p +:+ rest) = false ->
  parse_api_line ("pub " +:+ kw +:+ " " +:+ p +:+ rest) crate_name
  = Some (make_item kw p ("pub " +:+ kw +:+ " " +:+ p +:+ rest)).
Proof.
  intros Hin Hne Hp Hrest Hcrate Hnoise. unfold parse_api_line.
  rewrite (first_match_keyword kw p rest Hin)
    by now apply match_keyword_token.
  now rewrite on_match_noise, Hcrate, Hnoise.
Qed.

(** The theorem at a concrete line. *)
Lemma keyword_line_parsed_witness :
  parse_api_line "pub trait oxidros_zenoh::Selector where Self: Sized" "oxidros_zenoh"
  = Some (make_item "trait" "oxidros_zenoh::Selector"
            "pub trait oxidros_zenoh::Selector where Self: Sized").
Proof.
  apply (keyword_line_parsed "oxidros_zenoh" "trait" "oxidros_zenoh::Selector"
           " where Self: Sized").
  - unfold keyword_kinds. simpl. tauto.
  - discriminate.
  - reflexivity.
  - right. exists " "%char, "where Self: Sized". split; reflexivity.
  - reflexivity.
  - reflexivity.
Defined.

(* ===================================================================== *)
(** ** Where the entries of a registry come from                          *)
(* ===================================================================== *)

Section RegistryEntries.
Variable crate_name : string.

Lemma line_entry_inv (raw k : string) (item : ApiItem) :
  line_entry crate_name raw = Some (k, item) ->
  k = normalize_path crate_name (path item)
  /\ parse_api_line (PyStr.strip raw) crate_name = Some item.
Proof.
  unfold line_entry. destruct (negb _); [discriminate|].
  destruct (parse_api_line _ _) as [item'|]; [|discriminate].
  intros [= <- <-]. now split.
Qed.

Lemma intersperse_prefix (new s : string) :
  String.prefix new (PyStr.intersperse new s) = true.
Proof. destruct s; [apply prefix_refl | apply prefix_append]. Qed.

(** The key of an item whose path starts with the crate name starts with
    the placeholder. *)
Lemma normalize_path_prefix (p : string) :
  PyStr.startswith crate_name p = true ->
  PyStr.startswith "oxidros" (normalize_path crate_name p) = true.
Proof.
  unfold PyStr.startswith, normalize_path, PyStr.replace. intros H.
  destruct crate_name as [|a c] eqn:E; [apply intersperse_prefix|].
  apply prefix_split in H as [r ->].
  rewrite replace_from_occurrence by discriminate. apply prefix_append.
Qed.

Lemma fold_extract_sound (ls : list string) :
  forall apis k item,
    PyDict.get k (fold_left (extract_step crate_name) ls apis) = Some item ->
    PyDict.get k apis = Some item
    \/ exists raw, In raw ls /\ line_entry crate_name raw = Some (k, item).
Proof.
  induction ls as [|l ls IH]; intros apis k item H; [now left|].
  cbn [fold_left] in H. apply IH in H as [H|[raw [Hin He]]].
  - unfold extract_step in H.
    destruct (line_entry crate_name l) as [[k' item']|] eqn:He; [|now left].
    destruct (String.eqb_spec k' k) as [->|Hne].
    + rewrite get_set_eq in H. injection H as ->.
      right. exists l. split; [now left | exact He].
    + rewrite get_set_ne in H by exact Hne. now left.
  - right. exists raw. split; [now right | exact He].
Qed.

Lemma fold_extract_keeps (ls : list string) :
  forall apis k,
    is_Some (PyDict.get k apis) ->
    is_Some (PyDict.get k (fold_left (extract_step crate_name) ls apis)).
Proof.
  induction ls as [|l ls IH]; intros apis k H; [exact H|].
  cbn [fold_left]. apply IH. unfold extract_step.
  destruct (line_entry crate_name l) as [[k' item']|]; [|exact H].
  destruct (String.eqb_spec k' k) as [->|Hne].
  - rewrite get_set_eq. now eexists.
  - now rewrite get_set_ne.
Qed.

Lemma fold_extract_present (ls : list string) :
  forall apis raw k item,
    In raw ls -> line_entry crate_name raw = Some (k, item) ->
    is_Some (PyDict.get k (fold_left (extract_step crate_name) ls apis)).
Proof.
  induction ls as [|l ls IH]; intros apis raw k item Hin He; [destruct Hin|].
  cbn [fold_left]. destruct Hin as [->|Hin]; [|now apply (IH _ raw k item)].
  apply fold_extract_keeps. unfold extract_step. rewrite He, get_set_eq.
  now eexists.
Qed.

Lemma fold_extract_NoDup (ls : list string) :
  forall apis, NoDup (PyDict.keys apis) ->
               NoDup (PyDict.keys (fold_left (extract_step crate_name) ls apis)).
Proof.
  induction ls as [|l ls IH]; intros apis H; [exact H|].
  cbn [fold_left]. apply IH. unfold extract_step.
  destruct (line_entry crate_name l) as [[k item]|]; [|exact H].
  now apply keys_set_NoDup.
Qed.

Lemma extract_apis_NoDup (output : string) :
  NoDup (PyDict.keys (extract_apis output crate_name)).
Proof. apply fold_extract_NoDup. constructor. Qed.

End RegistryEntries.

(** X4: the registry holds the surviving lines and nothing else. Every
    entry is the record of a line of the listing, parsed from the
    stripped line, under the normalized path of that record, and this key
    starts with [oxidros]; and every line that has an entry has its key
    in the registry, with the record of a line of that key. *)
Theorem registry_entries_are_lines (output crate_name : string) :
  (forall k item,
     PyDict.get k (extract_apis output crate_name) = Some item ->
     k = normalize_path crate_name (path item)
     /\ PyStr.startswith "oxidros" k = true
     /\ exists raw,
          In raw (PyStr.splitlines output)
          /\ signature item = PyStr.strip raw
          /\ parse_api_line (PyStr.strip raw) crate_name = Some item)
  /\ (forall raw k item,
        In raw (PyStr.splitlines output) ->
        line_entry crate_name raw = Some (k, item) ->
        exists raw' item',
          PyDict.get k (extract_apis output crate_name) = Some item'
          /\ In raw' (PyStr.splitlines output)
          /\ line_entry crate_name raw' = Some (k, item')).
Proof.
  unfold extract_apis, extract_lines. split.
  - intros k item H.
    apply fold_extract_sound in H as [H|[raw [Hin He]]]; [discriminate|].
    apply line_entry_inv in He as [-> Hp].
    destruct (parse_api_line_inv _ _ _ Hp) as [kd [p [_ [Hcrate [_ ->]]]]].
    cbn [make_item path signature].
    split; [reflexivity|]. split; [now apply normalize_path_prefix|].
    exists raw. split; [exact Hin|]. split; [reflexivity | exact Hp].
  - intros raw k item Hin He.
    destruct (fold_extract_present crate_name _ [] raw k item Hin He) as [item' H].
    pose proof H as H'.
    apply fold_extract_sound in H' as [H'|[raw' [Hin' He']]]; [discriminate|].
    now exists raw', item'.
Qed.

(* ===================================================================== *)
(** ** The report reads the registries through their lookups              *)
(* ===================================================================== *)

Section LookupFacts.

Lemma key_set_ext (apis apis' : PyDict.t ApiItem) :
  (forall k, PyDict.get k apis = PyDict.get k apis') ->
  key_set apis = key_set apis'.
Proof.
  intros H. apply set_eq. intros k. rewrite !key_set_spec. now rewrite H.
Qed.

Lemma group_keys_ext (apis apis' : PyDict.t ApiItem) (keys : list string) :
  (forall k, PyDict.get k apis = PyDict.get k apis') ->
  forall d0, group_keys apis keys d0 = group_keys apis' keys d0.
Proof.
  intros H. induction keys as [|key keys IH]; intros d0; [reflexivity|].
  cbn [group_keys]. rewrite <- H. destruct (PyDict.get key apis); [apply IH | reflexivity].
Qed.

Lemma generate_markdown_lines_ext (z z' r r' : PyDict.t ApiItem) :
  (forall k, PyDict.get k z = PyDict.get k z') ->
  (forall k, PyDict.get k r = PyDict.get k r') ->
  generate_markdown_lines z r = generate_markdown_lines z' r'.
Proof.
  intros Hz Hr.
  unfold generate_markdown_lines, common_section, zenoh_section, rcl_section,
    common_keys, zenoh_only_keys, rcl_only_keys.
  rewrite (key_set_ext _ _ Hz), (key_set_ext _ _ Hr).
  now rewrite !(group_keys_ext _ _ _ Hz), !(group_keys_ext _ _ _ Hr).
Qed.

(** In a listing where lines of one key carry one record, the lookups
    are the entries of the lines. *)
Lemma extract_lines_lookup (crate_name : string) (ls : list string) :
  (forall l1 l2 k i1 i2,
     In l1 ls -> In l2 ls ->
     line_entry crate_name l1 = Some (k, i1) ->
     line_entry crate_name l2 = Some (k, i2) -> i1 = i2) ->
  forall k item,
    PyDict.get k (extract_lines crate_name ls) = Some item
    <-> exists l, In l ls /\ line_entry crate_name l = Some (k, item).
Proof.
  intros Hfun k item. unfold extract_lines. split.
  - intros H. apply fold_extract_sound in H as [H|H]; [discriminate | exact H].
  - intros [l [Hin He]].
    destruct (fold_extract_present crate_name ls [] l k item Hin He) as [item' H].
    rewrite H. f_equal.
    apply fold_extract_sound in H as [H|[l' [Hin' He']]]; [discriminate|].
    exact (Hfun l' l k item' item Hin' Hin He' He).
Qed.

Lemma extract_lines_permutation (crate_name : string) (ls ls' : list string) :
  ls ≡ₚ ls' ->
  (forall l1 l2 k i1 i2,
     In l1 ls -> In l2 ls ->
     line_entry crate_name l1 = Some (k, i1) ->
     line_entry crate_name l2 = Some (k, i2) -> i1 = i2) ->
  forall k, PyDict.get k (extract_lines crate_name ls)
            = PyDict.get k (extract_lines crate_name ls').
Proof.
  intros Hperm Hfun k.
  assert (forall l, In l ls <-> In l ls') as Hin.
  { intros l. rewrite <- !list_elem_of_In. now rewrite Hperm. }
  assert (forall l1 l2 k i1 i2,
            In l1 ls' -> In l2 ls' ->
            line_entry crate_name l1 = Some (k, i1) ->
            line_entry crate_name l2 = Some (k, i2) -> i1 = i2) as Hfun'.
  { intros l1 l2 k0 i1 i2 H1 H2. apply Hfun; now apply Hin. }
  pose proof (extract_lines_lookup crate_name ls Hfun k) as Hl.
  pose proof (extract_lines_lookup crate_name ls' Hfun' k) as Hl'.
  destruct (PyDict.get k (extract_lines crate_name ls)) as [item|] eqn:E.
  - symmetry. apply Hl'. destruct (proj1 (Hl item) eq_refl) as [l [H He]].
    exists l. split; [now apply Hin | exact He].
  - destruct (PyDict.get k (extract_lines crate_name ls')) as [item|] eqn:E';
      [|reflexivity].
    destruct (proj1 (Hl' item) eq_refl) as [l [H He]].
    apply (proj2 (Hl item)). exists l. split; [now apply Hin | exact He].
Qed.

End LookupFacts.

(** X8: the report does not depend on the insertion order of the
    registries: two pairs of registries with the same lookups give the
    same lines and the same text. *)
Theorem report_independent_of_insertion_order (z z' r r' : PyDict.t ApiItem) :
  (forall k, PyDict.get k z = PyDict.get k z') ->
  (forall k, PyDict.get k r = PyDict.get k r') ->
  generate_markdown_lines z r = generate_markdown_lines z' r'
  /\ generate_markdown z r = generate_markdown z' r'.
Proof.
  intros Hz Hr. unfold generate_markdown.
  now rewrite (generate_markdown_lines_ext z z' r r' Hz Hr).
Qed.

(** The theorem at two registries that hold the same records in opposite
    orders. *)
Lemma report_independent_of_insertion_order_witness :
  generate_markdown
    [ ("oxidros::A", make_item "struct" "oxidros_zenoh::A" "pub struct oxidros_zenoh::A");
      ("oxidros::B", make_item "struct" "oxidros_zenoh::B" "pub struct oxidros_zenoh::B") ]
    []
  = generate_markdown
      [ ("oxidros::B", make_item "struct" "oxidros_zenoh::B" "pub struct oxidros_zenoh::B");
        ("oxidros::A", make_item "struct" "oxidros_zenoh::A" "pub struct oxidros_zenoh::A") ]
      [].
Proof.
  refine (proj2 (report_independent_of_insertion_order _ _ [] [] _ _)).
  - intros k. cbn [PyDict.get].
    destruct (String.eqb_spec k "oxidros::A") as [->|]; [reflexivity|].
    destruct (String.eqb_spec k "oxidros::B"); reflexivity.
  - reflexivity.
Defined.

(** X5: in a listing where no two lines give different records for one
    key, the order of the lines does not matter: a reordered listing
    gives a registry with the same lookups, and so the same report on
    either side of the comparison. *)
Theorem collision_free_listing_order_irrelevant (crate_name : string)
    (ls ls' : list string) :
  ls ≡ₚ ls' ->
  (forall l1 l2 k i1 i2,
     In l1 ls -> In l2 ls ->
     line_entry crate_name l1 = Some (k, i1) ->
     line_entry crate_name l2 = Some (k, i2) -> i1 = i2) ->
  (forall k, PyDict.get k (extract_lines crate_name ls)
             = PyDict.get k (extract_lines crate_name ls'))
  /\ forall other,
       generate_markdown_lines (extract_lines crate_name ls) other
       = generate_markdown_lines (extract_lines crate_name ls') other
       /\ generate_markdown_lines other (extract_lines crate_name ls)
          = generate_markdown_lines other (extract_lines crate_name ls').
Proof.
  intros Hperm Hfun.
  pose proof (extract_lines_permutation crate_name ls ls' Hperm Hfun) as H.
  split; [exact H|]. intros other.
  split; apply generate_markdown_lines_ext; auto.
Qed.

(** The theorem at a listing of two lines and the same lines swapped. *)
Lemma collision_free_listing_order_irrelevant_witness :
  generate_markdown_lines
    (extract_lines "oxidros_zenoh"
       ["pub struct oxidros_zenoh::A"; "pub enum oxidros_zenoh::B"]) []
  = generate_markdown_lines
      (extract_lines "oxidros_zenoh"
         ["pub enum oxidros_zenoh::B"; "pub struct oxidros_zenoh::A"]) [].
Proof.
  refine (proj1 (proj2 (collision_free_listing_order_irrelevant "oxidros_zenoh"
                   ["pub struct oxidros_zenoh::A"; "pub enum oxidros_zenoh::B"]
                   ["pub enum oxidros_zenoh::B"; "pub struct oxidros_zenoh::A"] _ _)
                 [])).
  - apply Permutation_swap.
  - intros l1 l2 k i1 i2 [<-|[<-|[]]] [<-|[<-|[]]] H1 H2;
      vm_compute in H1, H2; congruence.
Defined.

(** X7: [generate_markdown] never meets a missing key. For all
    registries it reaches its write, with the summary and the three
    headings in their order around the three sections. *)
Theorem report_always_produced (zenoh_apis rcl_apis : PyDict.t ApiItem) :
  exists common_lines zenoh_lines rcl_lines,
    common_section zenoh_apis rcl_apis = Some common_lines
    /\ zenoh_section zenoh_apis rcl_apis = Some zenoh_lines
    /\ rcl_section zenoh_apis rcl_apis = Some rcl_lines
    /\ generate_markdown zenoh_apis rcl_apis
       = Some (PyStr.join (String "010" EmptyString)
                 (summary_lines (size (common_keys zenoh_apis rcl_apis))
                    (size (zenoh_only_keys zenoh_apis rcl_apis))
                    (size (rcl_only_keys zenoh_apis rcl_apis))
                  ++ common_heading ++ common_lines
                  ++ zenoh_heading ++ zenoh_lines
                  ++ rcl_heading ++ rcl_lines)).
Proof.
  destruct (generate_markdown_lines_sections zenoh_apis rcl_apis)
    as [c [z [r [Hc [Hz [Hr H]]]]]].
  exists c, z, r. repeat split; try assumption.
  unfold generate_markdown. now rewrite H.
Qed.

(* ===================================================================== *)
(** ** Counting the records of the report                                 *)
(* ===================================================================== *)

Section CountFacts.

Lemma concat_map_nil {A B : Type} (ms : list A) :
  concat (map (fun _ => @nil B) ms) = [].
Proof. induction ms as [|m ms IH]; [reflexivity | exact IH]. Qed.

Lemma concat_map_pointwise {A B : Type} (g h : A -> list B) (ms : list A) :
  (forall m, g m ≡ₚ h m) -> concat (map g ms) ≡ₚ concat (map h ms).
Proof.
  intros H. induction ms as [|m ms IH]; [reflexivity|].
  cbn [map concat]. now rewrite (H m), IH.
Qed.

Lemma concat_map_permutation {A B : Type} (g : A -> list B) (ms ms' : list A) :
  ms ≡ₚ ms' -> concat (map g ms) ≡ₚ concat (map g ms').
Proof.
  induction 1 as [|x l l' _ IH|x y l|l l' l'' _ IH1 _ IH2]; cbn [map concat].
  - reflexivity.
  - now rewrite IH.
  - rewrite !app_assoc. now rewrite (Permutation_app_comm (g y) (g x)).
  - now rewrite IH1.
Qed.

Lemma omap_concat {A B : Type} (f : A -> option B) (ls : list (list A)) :
  omap f (concat ls) = concat (map (omap f) ls).
Proof.
  induction ls as [|l ls IH]; [reflexivity|].
  cbn [concat map]. now rewrite omap_app, IH.
Qed.

Lemma omap_length_all {A B : Type} (f : A -> option B) (l : list A) :
  (forall x, In x l -> is_Some (f x)) -> length (omap f l) = length l.
Proof.
  induction l as [|x l IH]; intros H; [reflexivity|].
  destruct (H x (or_introl eq_refl)) as [y Hy].
  change (omap f (x :: l))
    with (match f x with Some y => y :: omap f l | None => omap f l end).
  rewrite Hy. cbn [length]. f_equal. apply IH. intros z Hz. apply H. now right.
Qed.

(** Filing the keys by module and taking the files of all modules, each
    once, gives the keys back. *)
Lemma concat_filter_cons {K M : Type} `{EqDecision M} (f : K -> M)
    (k : K) (keys : list K) (ms : list M) :
  NoDup ms ->
  concat (map (fun m => filter (fun x => f x = m) (k :: keys)) ms)
  ≡ₚ (if decide (f k ∈ ms) then [k] else [])
     ++ concat (map (fun m => filter (fun x => f x = m) keys) ms).
Proof.
  induction ms as [|m ms IH]; intros Hnd.
  - cbn. rewrite decide_False by apply not_elem_of_nil. reflexivity.
  - apply NoDup_cons in Hnd as [Hm Hnd]. cbn [map concat].
    rewrite (IH Hnd), filter_cons.
    destruct (decide (f k = m)) as [E|Hne].
    + rewrite (decide_True (P := f k ∈ m :: ms)) by (rewrite E; left).
      rewrite (decide_False (P := f k ∈ ms)) by now rewrite E.
      reflexivity.
    + destruct (decide (f k ∈ ms)) as [Hin|Hnin].
      * rewrite (decide_True (P := f k ∈ m :: ms)) by now right.
        cbn [app]. symmetry. apply Permutation_middle.
      * rewrite (decide_False (P := f k ∈ m :: ms)); [reflexivity|].
        rewrite elem_of_cons. tauto.
Qed.

Lemma concat_filter_all {K M : Type} `{EqDecision M} (f : K -> M)
    (keys : list K) (ms : list M) :
  NoDup ms -> (forall k, In k keys -> f k ∈ ms) ->
  concat (map (fun m => filter (fun x => f x = m) keys) ms) ≡ₚ keys.
Proof.
  intros Hnd. induction keys as [|k keys IH]; intros Hall.
  - change (concat (map (fun _ => @nil K) ms) ≡ₚ []).
    now rewrite concat_map_nil.
  - rewrite concat_filter_cons by exact Hnd.
    rewrite decide_True by (apply Hall; now left).
    cbn [app]. constructor. apply IH. intros x Hx. apply Hall. now right.
Qed.

(** The groups of a grouping hold each record of the keys once. *)
Lemma grouped_records (apis : PyDict.t ApiItem) (keys : list string)
    (by_module : PyDict.t (list ApiItem)) :
  group_keys apis keys [] = Some by_module ->
  concat (map snd (module_groups by_module))
  ≡ₚ omap (fun key => PyDict.get key apis) keys.
Proof.
  intros Hg. unfold module_groups. rewrite map_map. cbn [snd].
  rewrite (concat_map_pointwise _
             (fun m => omap (fun key => PyDict.get key apis)
                         (filter (fun key => module_of_key key = m) keys))).
  2:{ intros m. rewrite sorted_by_perm, (group_keys_lists _ _ _ _ Hg m).
      reflexivity. }
  rewrite (concat_map_permutation _ _ (PyDict.keys by_module))
    by apply sorted_by_perm.
  rewrite <- (map_map (fun m => filter (fun key => module_of_key key = m) keys)
                      (omap (fun key => PyDict.get key apis))).
  rewrite <- omap_concat.
  apply omap_Permutation, concat_filter_all.
  - apply (group_keys_NoDup _ _ _ _ Hg). constructor.
  - intros k Hk. apply list_elem_of_In, (group_keys_keys _ _ _ _ Hg).
    right. now exists k.
Qed.

(** The records of a set of keys of the registry are as many as the
    keys. *)
Lemma records_of_keys_length (apis : PyDict.t ApiItem) (keys : gset string) :
  keys ⊆ key_set apis ->
  length (omap (fun key => PyDict.get key apis) (elements keys)) = size keys.
Proof.
  intros Hsub. rewrite omap_length_all; [reflexivity|].
  intros k Hk. apply key_set_spec, Hsub, elem_of_elements, list_elem_of_In, Hk.
Qed.

Lemma section_records (apis : PyDict.t ApiItem) (keys : gset string)
    (by_module : PyDict.t (list ApiItem)) :
  keys ⊆ key_set apis ->
  group_keys apis (sorted (elements keys)) [] = Some by_module ->
  concat (map snd (module_groups by_module))
  ≡ₚ omap (fun key => PyDict.get key apis) (elements keys)
  /\ length (concat (map snd (module_groups by_module))) = size keys.
Proof.
  intros Hsub Hg.
  assert (concat (map snd (module_groups by_module))
          ≡ₚ omap (fun key => PyDict.get key apis) (elements keys)) as Hp.
  { rewrite (grouped_records _ _ _ Hg). apply omap_Permutation, sorted_by_perm. }
  split; [exact Hp|].
  rewrite Hp. now apply records_of_keys_length.
Qed.

Lemma key_set_size (apis : PyDict.t ApiItem) :
  NoDup (PyDict.keys apis) -> size (key_set apis) = length apis.
Proof.
  intros H. unfold key_set. rewrite size_list_to_set by exact H.
  unfold PyDict.keys. apply length_map.
Qed.

Lemma size_split (Z R : gset string) : size (Z ∩ R) + size (Z ∖ R) = size Z.
Proof.
  rewrite <- size_union.
  - f_equal. apply set_eq. intros x.
    rewrite elem_of_union, elem_of_intersection, elem_of_difference.
    destruct (decide (x ∈ R)); tauto.
  - apply elem_of_disjoint. intros x.
    rewrite elem_of_intersection, elem_of_difference. tauto.
Qed.

End CountFacts.

(** X9: no section drops a record or shows one twice. The report is the
    title and the summary table, then under each of the three headings
    the subsections of that section, each a module heading, an opening
    fence, one line per record (its signature without the component's
    prefix) and a closing fence. The records shown in the subsections of
    each section are the records of the keys of that partition, each
    once, and they are as many as the count of the summary for that
    section; so the signature of every record of a partition is a line
    of the report. *)
Theorem every_record_rendered_once (zenoh_apis rcl_apis : PyDict.t ApiItem) :
  let subsection (crate_prefix : string) (g : string * list ApiItem) : list string :=
    [ "### " +:+ fst g; EmptyString; "```rust" ]
    ++ map (fun item => PyStr.replace crate_prefix EmptyString (signature item))
           (snd g)
    ++ [ "```"; EmptyString ] in
  exists (common_groups zenoh_groups rcl_groups : list (string * list ApiItem))
         (lines : list string),
    generate_markdown_lines zenoh_apis rcl_apis = Some lines
    /\ lines
       = [ "# Oxidros API Reference";
           EmptyString;
           "This document is auto-generated by `scripts/generate_api_docs.py`.";
           EmptyString;
           "## Summary";
           EmptyString;
           "| Category | Count |";
           "|----------|-------|";
           "| Common APIs | "
             +:+ PyStr.str_of_nat (size (common_keys zenoh_apis rcl_apis)) +:+ " |";
           "| Zenoh-only APIs | "
             +:+ PyStr.str_of_nat (size (zenoh_only_keys zenoh_apis rcl_apis)) +:+ " |";
           "| RCL-only APIs | "
             +:+ PyStr.str_of_nat (size (rcl_only_keys zenoh_apis rcl_apis)) +:+ " |";
           EmptyString;
           "---";
           EmptyString;
           "## Common APIs (Both Backends)";
           EmptyString;
           "These APIs are available in both `oxidros-rcl` and `oxidros-zenoh` with the same signature.";
           EmptyString ]
         ++ flat_map (subsection "oxidros_zenoh::") common_groups
         ++ [ "---"; EmptyString; "## Zenoh-Only APIs"; EmptyString;
              "These APIs are specific to `oxidros-zenoh`."; EmptyString ]
         ++ flat_map (subsection "oxidros_zenoh::") zenoh_groups
         ++ [ "---"; EmptyString; "## RCL-Only APIs"; EmptyString;
              "These APIs are specific to `oxidros-rcl`."; EmptyString ]
         ++ flat_map (subsection "oxidros_rcl::") rcl_groups
    /\ (concat (map snd common_groups)
        ≡ₚ omap (fun key => PyDict.get key zenoh_apis)
                (elements (common_keys zenoh_apis rcl_apis))
        /\ length (concat (map snd common_groups))
           = size (common_keys zenoh_apis rcl_apis))
    /\ (concat (map snd zenoh_groups)
        ≡ₚ omap (fun key => PyDict.get key zenoh_apis)
                (elements (zenoh_only_keys zenoh_apis rcl_apis))
        /\ length (concat (map snd zenoh_groups))
           = size (zenoh_only_keys zenoh_apis rcl_apis))
    /\ (concat (map snd rcl_groups)
        ≡ₚ omap (fun key => PyDict.get key rcl_apis)
                (elements (rcl_only_keys zenoh_apis rcl_apis))
        /\ length (concat (map snd rcl_groups))
           = size (rcl_only_keys zenoh_apis rcl_apis))
    /\ (forall key item,
          key ∈ key_set zenoh_apis ->
          PyDict.get key zenoh_apis = Some item ->
          In (PyStr.replace "oxidros_zenoh::" EmptyString (signature item)) lines)
    /\ (forall key item,
          key ∈ rcl_only_keys zenoh_apis rcl_apis ->
          PyDict.get key rcl_apis = Some item ->
          In (PyStr.replace "oxidros_rcl::" EmptyString (signature item)) lines).
Proof.
  intros subsection.
  destruct (common_section_grouped zenoh_apis rcl_apis) as [dc [Hgc Hc]].
  destruct (zenoh_section_grouped zenoh_apis rcl_apis) as [dz [Hgz Hz]].
  destruct (rcl_section_grouped zenoh_apis rcl_apis) as [dr [Hgr Hr]].
  exists (module_groups dc), (module_groups dz), (module_groups dr).
  eexists. split.
  { unfold generate_markdown_lines. rewrite Hc, Hz, Hr.
    cbn [mbind option_bind]. reflexivity. }
  split.
  { rewrite !render_modules_groups. reflexivity. }
  split; [exact (section_records _ _ _ (common_keys_sub _ _) Hgc)|].
  split; [exact (section_records _ _ _ (zenoh_only_keys_sub _ _) Hgz)|].
  split; [exact (section_records _ _ _ (rcl_only_keys_sub _ _) Hgr)|].
  split.
  - intros key item Hk Hget.
    apply in_or_app; right. apply in_or_app; right.
    destruct (decide (key ∈ key_set rcl_apis)) as [Hin|Hout].
    + apply in_or_app; left.
      apply (grouped_keys_shown _ _ _ _ Hgc key item); [|exact Hget].
      unfold common_keys. rewrite elem_of_intersection. tauto.
    + apply in_or_app; right. apply in_or_app; right. apply in_or_app; left.
      apply (grouped_keys_shown _ _ _ _ Hgz key item); [|exact Hget].
      unfold zenoh_only_keys. rewrite elem_of_difference. tauto.
  - intros key item Hk Hget.
    do 6 (apply in_or_app; right).
    exact (grouped_keys_shown _ _ _ _ Hgr key item Hk Hget).
Qed.

(** X6: the counts of the summary add up to the sizes of the registries
    that [main] prints: for the registries of two listings, the common
    count and the zenoh-only count make the number of entries of the
    zenoh registry, and the common count and the rcl-only count that of
    the rcl registry. *)
Theorem summary_counts_add_up (zenoh_output rcl_output zenoh_crate rcl_crate : string) :
  let zenoh_apis := extract_apis zenoh_output zenoh_crate in
  let rcl_apis := extract_apis rcl_output rcl_crate in
  size (common_keys zenoh_apis rcl_apis) + size (zenoh_only_keys zenoh_apis rcl_apis)
  = length zenoh_apis
  /\ size (common_keys zenoh_apis rcl_apis) + size (rcl_only_keys zenoh_apis rcl_apis)
     = length rcl_apis.
Proof.
  intros zenoh_apis rcl_apis.
  unfold common_keys, zenoh_only_keys, rcl_only_keys.
  rewrite <- (key_set_size zenoh_apis) by apply extract_apis_NoDup.
  rewrite <- (key_set_size rcl_apis) by apply extract_apis_NoDup.
  split; [apply size_split|].
  replace (key_set zenoh_apis ∩ key_set rcl_apis)
    with (key_set rcl_apis ∩ key_set zenoh_apis)
    by (apply set_eq; intros x; rewrite !elem_of_intersection; tauto).
  apply size_split.
Qed.

(** X10: a registry compared with itself is all common: the two other
    counts are 0, the two other sections have no subsection, and the
    Common section groups every key of the registry. *)
Theorem self_comparison_all_common (apis : PyDict.t ApiItem) :
  exists by_module,
    group_keys apis (sorted (elements (key_set apis))) [] = Some by_module
    /\ generate_markdown_lines apis apis
       = Some (summary_lines (size (key_set apis)) 0 0
               ++ common_heading ++ render_modules "oxidros_zenoh::" by_module
               ++ zenoh_heading ++ rcl_heading).
Proof.
  assert (key_set apis ⊆ key_set apis) as Hsub by reflexivity.
  destruct (group_set_total apis _ Hsub) as [d Hd].
  exists d. split; [exact Hd|].
  unfold generate_markdown_lines, common_section, zenoh_section, rcl_section,
    common_keys, zenoh_only_keys, rcl_only_keys.
  assert (key_set apis ∩ key_set apis = key_set apis) as -> by by_membership.
  assert (key_set apis ∖ key_set apis = ∅) as -> by by_membership.
  rewrite !(group_no_keys _ ∅ eq_refl), Hd, size_empty.
  cbn [mbind option_bind]. now rewrite app_nil_r.
Qed.

(* ===================================================================== *)
(** ** White space around a line                                          *)
(* ===================================================================== *)

Section StripFacts.

Lemma lstrip_all_space (w : string) : all_space w = true -> PyStr.lstrip w = EmptyString.
Proof.
  induction w as [|c w IH]; [reflexivity|]. cbn [all_space PyStr.lstrip].
  intros H. apply andb_true_iff in H as [Hc Hw]. rewrite Hc. now apply IH.
Qed.

Lemma lstrip_space_app (w s : string) :
  all_space w = true -> PyStr.lstrip (w +:+ s) = PyStr.lstrip s.
Proof.
  induction w as [|c w IH]; [reflexivity|]. cbn [all_space].
  intros H. apply andb_true_iff in H as [Hc Hw].
  rewrite append_cons. cbn [PyStr.lstrip]. rewrite Hc. now apply IH.
Qed.

Lemma rstrip_all_space (w : string) : all_space w = true -> PyStr.rstrip w = EmptyString.
Proof.
  induction w as [|c w IH]; [reflexivity|]. cbn [all_space PyStr.rstrip].
  intros H. apply andb_true_iff in H as [Hc Hw]. now rewrite (IH Hw), Hc.
Qed.

Lemma rstrip_app_space (s w : string) :
  all_space w = true -> PyStr.rstrip (s +:+ w) = PyStr.rstrip s.
Proof.
  intros Hw. induction s as [|c s IH]; [now apply rstrip_all_space|].
  rewrite append_cons. cbn [PyStr.rstrip]. now rewrite IH.
Qed.

Lemma strip_app_space (s w : string) :
  all_space w = true -> PyStr.strip (s +:+ w) = PyStr.strip s.
Proof.
  intros Hw. unfold PyStr.strip. induction s as [|c s IH].
  - change (EmptyString +:+ w) with w. now rewrite (lstrip_all_space w Hw).
  - rewrite append_cons. cbn [PyStr.lstrip].
    destruct (PyStr.is_space c); [exact IH|].
    rewrite <- append_cons. now apply rstrip_app_space.
Qed.

Lemma rstrip_cons_nonspace (c : ascii) (r : string) :
  PyStr.is_space c = false ->
  PyStr.rstrip (String c r) = String c (PyStr.rstrip r).
Proof.
  intros Hc. cbn [PyStr.rstrip]. destruct (PyStr.rstrip r); [now rewrite Hc | reflexivity].
Qed.

Lemma rstrip_idempotent (s : string) :
  PyStr.rstrip (PyStr.rstrip s) = PyStr.rstrip s.
Proof.
  induction s as [|c s IH]; [reflexivity|].
  cbn [PyStr.rstrip]. destruct (PyStr.rstrip s) as [|c' s'] eqn:E.
  - destruct (PyStr.is_space c) eqn:Hc; [reflexivity|].
    cbn [PyStr.rstrip]. now rewrite Hc.
  - cbn [PyStr.rstrip] in IH |- *. now rewrite IH.
Qed.

Lemma lstrip_head (s : string) :
  PyStr.lstrip s = EmptyString
  \/ exists c r, PyStr.lstrip s = String c r /\ PyStr.is_space c = false.
Proof.
  induction s as [|c s IH]; [now left|]. cbn [PyStr.lstrip].
  destruct (PyStr.is_space c) eqn:Hc; [exact IH|]. right. now exists c, s.
Qed.

(** Stripping a stripped text changes nothing. *)
Lemma strip_idempotent (s : string) : PyStr.strip (PyStr.strip s) = PyStr.strip s.
Proof.
  unfold PyStr.strip. destruct (lstrip_head s) as [->|[c [r [-> Hc]]]]; [reflexivity|].
  rewrite (rstrip_cons_nonspace c r Hc). cbn [PyStr.lstrip]. rewrite Hc.
  rewrite (rstrip_cons_nonspace c _ Hc). now rewrite rstrip_idempotent.
Qed.

End StripFacts.

(** X11: white space around a line of the listing never matters. A line
    padded with white space on either side strips to the same text, has
    the same registry entry and takes the registry to the same registry
    as the line without the padding; and the text kept as signature is
    already stripped. *)
Theorem surrounding_white_space_ignored (crate_name pre raw post : string) :
  all_space pre = true -> all_space post = true ->
  PyStr.strip (pre +:+ raw +:+ post) = PyStr.strip raw
  /\ PyStr.strip (PyStr.strip raw) = PyStr.strip raw
  /\ line_entry crate_name (pre +:+ raw +:+ post) = line_entry crate_name raw
  /\ forall apis,
       extract_step crate_name apis (pre +:+ raw +:+ post)
       = extract_step crate_name apis raw.
Proof.
  intros Hpre Hpost.
  assert (PyStr.strip (pre +:+ raw +:+ post) = PyStr.strip raw) as E.
  { rewrite <- (strip_app_space raw post Hpost).
    unfold PyStr.strip. now rewrite lstrip_space_app. }
  split; [exact E|]. split; [apply strip_idempotent|].
  assert (line_entry crate_name (pre +:+ raw +:+ post) = line_entry crate_name raw)
    as El by (unfold line_entry; now rewrite E).
  split; [exact El|]. intros apis. unfold extract_step. now rewrite El.
Qed.

(** The theorem at a line with blanks before and a blank and a tab after. *)
Lemma surrounding_white_space_ignored_witness :
  line_entry "oxidros_zenoh"
    ("  " +:+ "pub struct oxidros_zenoh::Context" +:+ String " " (String "009" EmptyString))
  = line_entry "oxidros_zenoh" "pub struct oxidros_zenoh::Context".
Proof.
  refine (proj1 (proj2 (proj2 (surrounding_white_space_ignored "oxidros_zenoh"
            "  " "pub struct oxidros_zenoh::Context"
            (String " " (String "009" EmptyString)) _ _)))); reflexivity.
Defined.

(* ===================================================================== *)
(** ** The module of a key                                                *)
(* ===================================================================== *)

Section ModuleFacts.

(** The test for [::] at the head of a text reads two characters. *)
Lemma prefix_colons_head (a s t : string) :
  a <> EmptyString ->
  String.prefix "::" (a +:+ ":" +:+ s) = String.prefix "::" (a +:+ ":" +:+ t).
Proof.
  intros Ha. destruct a as [|c [|d a]]; [contradiction| |].
  - change (String.prefix "::" (String c (String ":" s))
            = String.prefix "::" (String c (String ":" t))).
    cbn [String.prefix]. destruct (ascii_dec ":" c); [|reflexivity].
    destruct (ascii_dec ":" ":"); [destruct s, t|]; reflexivity.
  - change (String.prefix "::" (String c (String d (a +:+ ":" +:+ s)))
            = String.prefix "::" (String c (String d (a +:+ ":" +:+ t)))).
    cbn [String.prefix]. destruct (ascii_dec ":" c); [|reflexivity].
    destruct (ascii_dec ":" d); [|reflexivity].
    destruct (a +:+ ":" +:+ s), (a +:+ ":" +:+ t); reflexivity.
Qed.

(** A first segment: text in which, followed by a colon, no [::] starts. *)
Lemma split_first_segment (a s : string) :
  forall cur,
    PyStr.contains "::" (a +:+ ":") = false ->
    PyStr.split_from "::" 0 cur (a +:+ "::" +:+ s)
    = (cur +:+ a) :: PyStr.split_from "::" 0 EmptyString s.
Proof.
  induction a as [|c a IH]; intros cur H.
  - rewrite append_nil_r. apply (split_from_separator "::"). discriminate.
  - rewrite append_cons in H. apply contains_cons_false in H as [Hp Hr].
    rewrite append_cons. cbn [PyStr.split_from].
    assert (String.prefix "::" (String c (a +:+ "::" +:+ s)) = false) as ->.
    { transitivity (String.prefix "::" (String c (a +:+ ":"))); [|exact Hp].
      change (String.prefix "::" (String c a +:+ ":" +:+ ":" +:+ s)
              = String.prefix "::" (String c a +:+ ":" +:+ EmptyString)).
      apply prefix_colons_head. discriminate. }
    rewrite (IH _ Hr), append_assoc. reflexivity.
Qed.

End ModuleFacts.

(** X13: the subsection a key lands in. A key without [::] goes under
    [root]; otherwise the module is the text between the first [::] and
    the next one, or the end of the key. *)
Theorem module_of_key_segments :
  (forall key, PyStr.contains "::" key = false -> module_of_key key = "root")
  /\ (forall a m,
        PyStr.contains "::" (a +:+ ":") = false ->
        PyStr.contains "::" m = false ->
        module_of_key (a +:+ "::" +:+ m) = m)
  /\ (forall a m rest,
        PyStr.contains "::" (a +:+ ":") = false ->
        PyStr.contains "::" (m +:+ ":") = false ->
        module_of_key (a +:+ "::" +:+ m +:+ "::" +:+ rest) = m).
Proof.
  unfold module_of_key, PyStr.split. split; [|split].
  - intros key H. now rewrite (split_from_absent _ _ _ H).
  - intros a m Ha Hm.
    rewrite (split_first_segment a m _ Ha), (split_from_absent _ _ _ Hm).
    reflexivity.
  - intros a m rest Ha Hm.
    rewrite (split_first_segment a _ _ Ha), (split_first_segment m rest _ Hm).
    pose proof (split_from_nonempty "::" rest 0 EmptyString) as Hne.
    destruct (PyStr.split_from "::" 0 EmptyString rest); [contradiction|].
    reflexivity.
Qed.

(* ===================================================================== *)
(** ** Signature lines and frame lines                                    *)
(* ===================================================================== *)

Section SignatureLines.

(** Removing a prefix text that starts with [o] leaves a leading [pub ]
    in place. *)
Lemma replace_keeps_pub (old rest : string) :
  String.prefix "o" old = true ->
  PyStr.startswith "pub " (PyStr.replace old EmptyString ("pub " +:+ rest)) = true.
Proof.
  intros Ho. destruct old as [|c old]; [discriminate|].
  apply (prefix_cons "o" c EmptyString old) in Ho as [<- _].
  unfold PyStr.replace, PyStr.startswith.
  change ("pub " +:+ rest)
    with (String "p" (String "u" (String "b" (String " " rest)))).
  cbn [PyStr.replace_from].
  repeat match goal with
  | |- context [String.prefix (String "o" old) (String ?a ?r)] =>
      change (String.prefix (String "o" old) (String a r)) with false
  end.
  cbv iota. apply (prefix_append "pub ").
Qed.

Lemma line_entry_signature (crate_name raw k : string) (item : ApiItem) :
  line_entry crate_name raw = Some (k, item) ->
  signature item = PyStr.strip raw
  /\ PyStr.startswith "pub " (signature item) = true.
Proof.
  unfold line_entry.
  destruct (PyStr.startswith "pub " (PyStr.strip raw)) eqn:Hpub; [|discriminate].
  cbn [negb].
  destruct (parse_api_line _ _) as [item'|] eqn:Hp; [|discriminate].
  intros [= <- <-].
  destruct (parse_api_line_inv _ _ _ Hp) as [kd [p [_ [_ [_ ->]]]]].
  cbn [make_item signature]. now split.
Qed.

Lemma frame_line_not_pub (line : string) :
  is_frame_line line -> PyStr.startswith "pub " line = false.
Proof. intros [->|[->|[->|[m ->]]]]; reflexivity. Qed.

End SignatureLines.

(** X14: in a section, records and frame cannot be mistaken for each
    other. The line shown for an entry of a registry built by
    [extract_apis] starts with [pub ], under either crate prefix, and no
    frame line (heading of a module, fence, blank line) starts with
    [pub ]. *)
Theorem shown_signature_starts_with_pub (output crate_name : string) :
  (forall k item,
     PyDict.get k (extract_apis output crate_name) = Some item ->
     PyStr.startswith "pub " (signature item) = true
     /\ PyStr.startswith "pub " (shown_signature "oxidros_zenoh::" item) = true
     /\ PyStr.startswith "pub " (shown_signature "oxidros_rcl::" item) = true)
  /\ (forall line, is_frame_line line -> PyStr.startswith "pub " line = false).
Proof.
  split; [|exact frame_line_not_pub].
  intros k item H. unfold extract_apis, extract_lines in H.
  apply fold_extract_sound in H as [H|[raw [_ He]]]; [discriminate|].
  apply line_entry_signature in He as [_ Hpub].
  split; [exact Hpub|].
  unfold PyStr.startswith in Hpub. apply prefix_split in Hpub as [rest E].
  unfold shown_signature. rewrite E.
  split; now apply replace_keeps_pub.
Qed.

(* ===================================================================== *)
(** ** Ties of the sort; symbols of both crates                           *)
(* ===================================================================== *)

Section StableSort.
Context {A : Type} (key : A -> string).




End StableSort.

Section SharedSymbols.

Lemma normalize_crate_path (crate_name rest : string) :
  crate_name <> EmptyString ->
  PyStr.contains crate_name rest = false ->
  normalize_path crate_name (crate_name +:+ rest) = "oxidros" +:+ rest.
Proof.
  intros Hne Hc. unfold normalize_path, PyStr.replace.
  destruct crate_name as [|a c] eqn:E; [contradiction|].
  rewrite replace_from_occurrence by discriminate.
  now rewrite replace_from_absent.
Qed.

Lemma line_entry_of_parse (crate_name raw : string) (item : ApiItem) :
  parse_api_line (PyStr.strip raw) crate_name = Some item ->
  line_entry crate_name raw
  = Some (normalize_path crate_name (path item), item).
Proof.
  intros Hp. unfold line_entry. rewrite Hp.
  destruct (parse_api_line_inv _ _ _ Hp) as [k [p [Hm _]]].
  now rewrite (first_match_pub _ _ _ Hm).
Qed.

Lemma key_of_parsed_line (output crate_name raw : string) (item : ApiItem) :
  In raw (PyStr.splitlines output) ->
  parse_api_line (PyStr.strip raw) crate_name = Some item ->
  normalize_path crate_name (path item) ∈ key_set (extract_apis output crate_name).
Proof.
  intros Hin Hp. apply key_set_spec.
  apply (fold_extract_present crate_name _ [] raw _ item Hin).
  now apply line_entry_of_parse.
Qed.

End SharedSymbols.


(** X16: a symbol that both listings give under the same path after the
    crate name is common. If a line of the zenoh listing parses to a
    record of path [oxidros_zenoh<rest>] and a line of the rcl listing
    to one of path [oxidros_rcl<rest>], where [oxidros] does not occur in
    <rest>, the two records have the one key [oxidros<rest>] and this key
    is in the common partition. *)
Theorem shared_symbol_is_common (zenoh_output rcl_output zraw rraw rest : string)
    (zitem ritem : ApiItem) :
  In zraw (PyStr.splitlines zenoh_output) ->
  In rraw (PyStr.splitlines rcl_output) ->
  parse_api_line (PyStr.strip zraw) "oxidros_zenoh" = Some zitem ->
  parse_api_line (PyStr.strip rraw) "oxidros_rcl" = Some ritem ->
  path zitem = "oxidros_zenoh" +:+ rest ->
  path ritem = "oxidros_rcl" +:+ rest ->
  PyStr.contains "oxidros" rest = false ->
  normalize_path "oxidros_zenoh" (path zitem) = "oxidros" +:+ rest
  /\ normalize_path "oxidros_rcl" (path ritem) = "oxidros" +:+ rest
  /\ "oxidros" +:+ rest
     ∈ common_keys (extract_apis zenoh_output "oxidros_zenoh")
                   (extract_apis rcl_output "oxidros_rcl").
Proof.
  intros Hzin Hrin Hz Hr Ez Er Hno.
  assert (normalize_path "oxidros_zenoh" (path zitem) = "oxidros" +:+ rest) as Nz.
  { rewrite Ez. apply normalize_crate_path; [discriminate|].
    destruct (PyStr.contains "oxidros_zenoh" rest) eqn:E; [|reflexivity].
    apply (contains_of_prefix "oxidros") in E; [congruence | reflexivity]. }
  assert (normalize_path "oxidros_rcl" (path ritem) = "oxidros" +:+ rest) as Nr.
  { rewrite Er. apply normalize_crate_path; [discriminate|].
    destruct (PyStr.contains "oxidros_rcl" rest) eqn:E; [|reflexivity].
    apply (contains_of_prefix "oxidros") in E; [congruence | reflexivity]. }
  split; [exact Nz|]. split; [exact Nr|].
  unfold common_keys. apply elem_of_intersection. split.
  - rewrite <- Nz. now apply (key_of_parsed_line _ _ zraw).
  - rewrite <- Nr. now apply (key_of_parsed_line _ _ rraw).
Qed.

(** The theorem at the two listings of one struct. *)
Lemma shared_symbol_is_common_witness :
  "oxidros::Context"
  ∈ common_keys (extract_apis "pub struct oxidros_zenoh::Context" "oxidros_zenoh")
                (extract_apis "pub struct oxidros_rcl::Context" "oxidros_rcl").
Proof.
  refine (proj2 (proj2 (shared_symbol_is_common
            "pub struct oxidros_zenoh::Context" "pub struct oxidros_rcl::Context"
            "pub struct oxidros_zenoh::Context" "pub struct oxidros_rcl::Context"
            "::Context"
            (make_item "struct" "oxidros_zenoh::Context" "pub struct oxidros_zenoh::Context")
            (make_item "struct" "oxidros_rcl::Context" "pub struct oxidros_rcl::Context")
            _ _ _ _ _ _ _)));
    solve [reflexivity | left; reflexivity].
Defined.
